(** * check_file_sizes: ignore matching, classification, line counts, report

    A shallow embedding of [check_file_sizes.py].  Paths and patterns are
    [string]s of 8-bit characters (the ASCII view of a Python [str]); the
    host is assumed POSIX, so [os.path.normcase] is the identity and the
    only separator [os.path] knows is [/]. *)

From Stdlib Require Import String Ascii List Bool Arith Lia.
From Stdlib Require Import Permutation Sorted.
From Stdlib Require Import Numbers.DecimalString.
Import ListNotations.
Open Scope list_scope.
Open Scope string_scope.

(** ** Python [str] methods used by the script *)

Module Str.

(** [s.replace('\\', '/')] *)
Definition unify_sep (c : ascii) : ascii :=
  if Ascii.eqb c "\" then "/"%char else c.

Fixpoint replace_backslash (s : string) : string :=
  match s with
  | "" => ""
  | String c s' => String (unify_sep c) (replace_backslash s')
  end.

(** [s.lower()] on the ASCII letters. *)
Definition lower_char (c : ascii) : ascii :=
  let n := nat_of_ascii c in
  if ((65 <=? n) && (n <=? 90))%nat then ascii_of_nat (n + 32) else c.

Fixpoint lower (s : string) : string :=
  match s with
  | "" => ""
  | String c s' => String (lower_char c) (lower s')
  end.

(** [s.startswith(p)] *)
Definition startswith (s p : string) : bool := String.prefix p s.

(** [s.endswith(p)]: some suffix of [s] is [p]. *)
Fixpoint endswith (s p : string) : bool :=
  String.eqb s p ||
  match s with
  | "" => false
  | String _ s' => endswith s' p
  end.

(** [p in s] for strings. *)
Fixpoint contains (s p : string) : bool :=
  String.prefix p s ||
  match s with
  | "" => false
  | String _ s' => contains s' p
  end.

(** [c in s] for one character. *)
Fixpoint has_char (c : ascii) (s : string) : bool :=
  match s with
  | "" => false
  | String a s' => Ascii.eqb a c || has_char c s'
  end.

(** [s.find(c)] *)
Fixpoint find_char (c : ascii) (s : string) : option nat :=
  match s with
  | "" => None
  | String a s' =>
      if Ascii.eqb a c then Some 0
      else option_map S (find_char c s')
  end.

(** [s.rfind(c)] *)
Fixpoint rfind_char (c : ascii) (s : string) : option nat :=
  match s with
  | "" => None
  | String a s' =>
      match rfind_char c s' with
      | Some i => Some (S i)
      | None => if Ascii.eqb a c then Some 0 else None
      end
  end.

(** [s.split(c)] *)
Fixpoint split (c : ascii) (s : string) : list string :=
  match s with
  | "" => [""]
  | String a s' =>
      if Ascii.eqb a c then "" :: split c s'
      else match split c s' with
           | h :: t => String a h :: t
           | [] => [String a ""]
           end
  end.

(** [c * n] *)
Fixpoint repeat_char (c : ascii) (n : nat) : string :=
  match n with
  | 0 => ""
  | S n' => String c (repeat_char c n')
  end.

(** [str(n)] for a non-negative integer. *)
Definition of_nat (n : nat) : string :=
  NilEmpty.string_of_uint (Nat.to_uint n).

(** [f"{s:<w}"]: left-aligned in a field of width [w]. *)
Definition ljust (s : string) (w : nat) : string :=
  s ++ repeat_char " " (w - String.length s).

End Str.

(** ** [fnmatch.fnmatch] on a POSIX host

    [fnmatch] translates the pattern to a regular expression and asks for a
    full match.  The translation is kept as a token list: [*] is any run of
    characters (separators included), [?] one character, [[seq]] and
    [[!seq]] one character in or out of the class, anything else itself.
    The library folds a run of [*] into one; that changes no match and is
    not repeated here. *)

Module Fnmatch.

Inductive tok : Type :=
| TStar
| TAny
| TLit (c : ascii)
| TClass (negated : bool) (items : list (ascii * ascii)).

(** The body of a bracket expression, read as a regular-expression class:
    [a-b] is a range, any other character stands for itself. *)
Fixpoint class_items (body : string) : list (ascii * ascii) :=
  match body with
  | "" => []
  | String a rest =>
      match rest with
      | String "-" (String b rest') => (a, b) :: class_items rest'
      | _ => (a, a) :: class_items rest
      end
  end.

Definition class_tok (stuff : string) : tok :=
  match stuff with
  | String "!" body => TClass true (class_items body)
  | _ => TClass false (class_items stuff)
  end.

(** Index, in the text after a [[], of the [']'] that closes it: a leading
    [!] and then a leading [']'] are stepped over first. *)
Definition close_index (rest : string) : option nat :=
  let '(j1, r1) :=
    match rest with
    | String "!" r => (1, r)
    | _ => (0, rest)
    end in
  let '(j2, r2) :=
    match r1 with
    | String "]" r => (S j1, r)
    | _ => (j1, r1)
    end in
  option_map (Nat.add j2) (Str.find_char "]" r2).

(** [translate]: [skip] counts the characters of a bracket expression
    still to be stepped over (the source moves its index to [j+1]). *)
Fixpoint translate_from (skip : nat) (pat : string) : list tok :=
  match pat with
  | "" => []
  | String c rest =>
      match skip with
      | S k => translate_from k rest
      | 0 =>
          if Ascii.eqb c "*" then TStar :: translate_from 0 rest
          else if Ascii.eqb c "?" then TAny :: translate_from 0 rest
          else if Ascii.eqb c "[" then
            match close_index rest with
            | None => TLit "[" :: translate_from 0 rest
            | Some j =>
                class_tok (String.substring 0 j rest)
                  :: translate_from (S j) rest
            end
          else TLit c :: translate_from 0 rest
      end
  end.

Definition translate (pat : string) : list tok := translate_from 0 pat.

(** What [skip] stands for: the characters stepped over end at a [']']. *)
Definition skip_ok (skip : nat) (pat : string) : Prop :=
  match skip with
  | 0 => True
  | S k => String.get k pat = Some "]"%char
  end.

Definition in_range (c : ascii) (r : ascii * ascii) : bool :=
  ((nat_of_ascii (fst r) <=? nat_of_ascii c)
   && (nat_of_ascii c <=? nat_of_ascii (snd r)))%nat.

Definition tok_accepts (t : tok) (c : ascii) : bool :=
  match t with
  | TStar | TAny => true
  | TLit a => Ascii.eqb a c
  | TClass neg items => xorb neg (existsb (in_range c) items)
  end.

(** Full match of a string against a token list. *)
Fixpoint match_toks (ts : list tok) : string -> bool :=
  match ts with
  | [] => fun s => match s with "" => true | _ => false end
  | TStar :: ts' =>
      fix star (s : string) : bool :=
        match_toks ts' s ||
        match s with
        | "" => false
        | String _ s' => star s'
        end
  | t :: ts' =>
      fun s =>
        match s with
        | "" => false
        | String c s' => tok_accepts t c && match_toks ts' s'
        end
  end.

Definition fnmatch (name pat : string) : bool :=
  match_toks (translate pat) name.

End Fnmatch.

(** ** [os.path] on a POSIX host *)

Module Path.

(** [os.path.basename]: what follows the last [/]. *)
Fixpoint basename (p : string) : string :=
  match p with
  | "" => ""
  | String _ p' => if Str.has_char "/" p then basename p' else p
  end.

(** [os.path.join] of two components. *)
Definition join (a b : string) : string :=
  if Str.startswith b "/" then b
  else if String.eqb a "" || Str.endswith a "/" then a ++ b
  else a ++ "/" ++ b.

(** [os.path.relpath(p, ".")] for the paths [os.walk(".")] builds from
    ordinary entry names: the leading [./] goes. *)
Definition relpath (p : string) : string :=
  match p with
  | String "." (String "/" r) => r
  | _ => p
  end.

(** [pathlib.PurePosixPath(p).name]: the last component that is neither
    empty nor [.]. *)
Definition is_part (s : string) : bool :=
  negb (String.eqb s "") && negb (String.eqb s ".").

Definition name (p : string) : string :=
  last (filter is_part (Str.split "/" p)) "".

(** [PurePath.suffix]: from the last dot of the name, unless that dot
    opens or closes the name. *)
Definition suffix (p : string) : string :=
  let n := name p in
  match Str.rfind_char "." n with
  | Some i =>
      if ((0 <? i) && (i <? String.length n - 1))%nat
      then String.substring i (String.length n - i) n
      else ""
  | None => ""
  end.

End Path.

Import Str Fnmatch Path.

(** ** [should_ignore] *)

Fixpoint should_ignore_loop (file_path : string) (ignore_patterns : list string)
  : bool :=
  match ignore_patterns with
  | [] => false
  | pattern :: rest =>
      if endswith pattern "/" then
        if fnmatch (file_path ++ "/") ("*/" ++ pattern)
           || fnmatch (file_path ++ "/") pattern
        then true
        else should_ignore_loop file_path rest
      else if fnmatch file_path pattern || fnmatch (basename file_path) pattern
      then true
      else if contains pattern "/" && fnmatch file_path ("*/" ++ pattern)
      then true
      else should_ignore_loop file_path rest
  end.

Definition should_ignore (file_path : string) (ignore_patterns : list string)
  : bool :=
  should_ignore_loop (replace_backslash file_path) ignore_patterns.

(** ** Exceptions and the filesystem *)

Inductive exn : Type :=
| FileNotFoundError
| PermissionError
| IsADirectoryError
| UnicodeDecodeError
| ValueError.

(** [isinstance(e, OSError)] *)
Definition is_OSError (e : exn) : bool :=
  match e with
  | FileNotFoundError | PermissionError | IsADirectoryError => true
  | _ => false
  end.

Inductive outcome (A : Type) : Type :=
| Return (a : A)
| Raise (e : exn).
Arguments Return {A} a.
Arguments Raise {A} e.

Definition bind {A B : Type} (m : outcome A) (k : A -> outcome B) : outcome B :=
  match m with
  | Return a => k a
  | Raise e => Raise e
  end.

Notation "x <- m ;; k" := (bind m (fun x => k))
  (at level 61, m at next level, right associativity).

(** [try: body except (OSError, UnicodeDecodeError): return v] *)
Definition try_except {A : Type} (body : outcome A) (v : A) : outcome A :=
  match body with
  | Return a => Return a
  | Raise e =>
      if is_OSError e || match e with UnicodeDecodeError => true | _ => false end
      then Return v
      else Raise e
  end.

(** A directory tree of entry names, as [os.scandir] lists them. *)
Unset Elimination Schemes.
Inductive entry : Type :=
| File (name : string)
| Dir (name : string) (children : list entry).
Set Elimination Schemes.

(** The working directory as a tree, [os.path.exists], and what
    [open(p, 'r', encoding='utf-8', errors='ignore')] followed by reading
    gives: the decoded text, or the exception raised. *)
Record filesystem : Type := {
  fs_root : entry;
  fs_exists : string -> bool;
  fs_read : string -> outcome string
}.

(** ** Text files read line by line *)

Definition LF : ascii := "010"%char.
Definition CR : ascii := "013"%char.

(** Text mode with the default [newline=None]: [\r\n] and [\r] arrive as
    [\n]. *)
Fixpoint universal_newlines (s : string) : string :=
  match s with
  | "" => ""
  | String c s' =>
      if Ascii.eqb c CR then
        match s' with
        | String "010" s'' => String LF (universal_newlines s'')
        | _ => String LF (universal_newlines s')
        end
      else String c (universal_newlines s')
  end.

(** [for line in f]: each line keeps its [\n]; a last line without one is
    still a line. *)
Fixpoint split_lines (s : string) : list string :=
  match s with
  | "" => []
  | String c s' =>
      if Ascii.eqb c LF then String LF "" :: split_lines s'
      else match split_lines s' with
           | [] => [String c ""]
           | l :: ls => String c l :: ls
           end
  end.

Definition file_lines (text : string) : list string :=
  split_lines (universal_newlines text).

(** [str.isspace] on one ASCII character. *)
Definition is_space (c : ascii) : bool :=
  let n := nat_of_ascii c in
  (((9 <=? n) && (n <=? 13)) || ((28 <=? n) && (n <=? 32)))%nat.

Fixpoint lstrip (s : string) : string :=
  match s with
  | "" => ""
  | String c s' => if is_space c then lstrip s' else s
  end.

Fixpoint rstrip (s : string) : string :=
  match s with
  | "" => ""
  | String c s' =>
      match rstrip s' with
      | "" => if is_space c then "" else String c ""
      | r => String c r
      end
  end.

Definition strip (s : string) : string := rstrip (lstrip s).

(** ** [parse_gitignore] *)

Definition parse_line (patterns : list string) (line : string) : list string :=
  let line := strip line in
  if negb (String.eqb line "") && negb (startswith line "#")
  then (patterns ++ [line])%list
  else patterns.

Definition parse_gitignore (fs : filesystem) (gitignore_path : string)
  : outcome (list string) :=
  if fs_exists fs gitignore_path then
    text <- fs_read fs gitignore_path ;;
    Return (fold_left parse_line (file_lines text) [])
  else Return [].

(** ** [count_lines] *)

Definition count_lines (fs : filesystem) (file_path : string) : outcome nat :=
  try_except
    (text <- fs_read fs file_path ;;
     Return (List.length (file_lines text)))
    0.

(** ** [is_text_file] *)

Definition text_extensions : list string :=
  [".py"; ".js"; ".html"; ".css"; ".cpp"; ".c"; ".h"; ".java"; ".rb"; ".php";
   ".go"; ".rs"; ".swift"; ".kt"; ".ts"; ".jsx"; ".tsx"; ".vue"; ".scss";
   ".sass"; ".less"; ".sql"; ".sh"; ".bash"; ".zsh"; ".fish"; ".ps1"; ".bat";
   ".cmd"; ".xml"; ".json"; ".yaml"; ".yml"; ".toml"; ".ini"; ".cfg"; ".conf";
   ".txt"; ".md"; ".rst"; ".tex"; ".r"; ".R"; ".m"; ".pl"; ".lua"; ".vim";
   ".cs"; ".vb"; ".fs"; ".scala"; ".clj"; ".hs"; ".elm"; ".dart"; ".jl"].

Definition mem (x : string) (l : list string) : bool :=
  existsb (String.eqb x) l.

Definition is_text_file (file_path : string) : bool :=
  mem (lower (suffix file_path)) text_extensions.

(** ** [categorize_file] *)

Inductive category : Type := client | server | other.

Definition categorize_file (file_path : string) : category :=
  let normalized_path := lower (replace_backslash file_path) in
  if contains normalized_path "/client/" || startswith normalized_path "client/"
  then client
  else if contains normalized_path "/server/"
          || startswith normalized_path "server/"
  then server
  else other.

(** ** The walk *)

Definition file_entry : Type := string * nat.

Record state : Type := {
  client_files : list file_entry;
  server_files : list file_entry;
  other_files : list file_entry
}.

Definition empty_state : state :=
  {| client_files := []; server_files := []; other_files := [] |}.

Definition record (st : state) (c : category) (e : file_entry) : state :=
  match c with
  | client =>
      {| client_files := (client_files st ++ [e])%list;
         server_files := server_files st;
         other_files := other_files st |}
  | server =>
      {| client_files := client_files st;
         server_files := (server_files st ++ [e])%list;
         other_files := other_files st |}
  | other =>
      {| client_files := client_files st;
         server_files := server_files st;
         other_files := (other_files st ++ [e])%list |}
  end.

Definition all_records (st : state) : list file_entry :=
  (client_files st ++ server_files st ++ other_files st)%list.

Definition root_dir : string := ".".

Definition dirnames (es : list entry) : list string :=
  flat_map (fun e => match e with Dir d _ => [d] | File _ => [] end) es.

Definition filenames (es : list entry) : list string :=
  flat_map (fun e => match e with File f => [f] | Dir _ _ => [] end) es.

(** [os.walk(top)], top down, [top] naming the directory [e].  The caller's
    [dirs[:] = [...]] is the [keep] test: a directory that fails it is never
    listed. *)
Fixpoint walk (keep : string -> string -> bool) (top : string) (e : entry)
  : list (string * list string * list string) :=
  match e with
  | File _ => []
  | Dir _ es =>
      (top, dirnames es, filenames es)
        :: flat_map (fun c =>
                       match c with
                       | Dir d _ =>
                           if keep top d then walk keep (join top d) c else []
                       | File _ => []
                       end) es
  end.

Section Walker.

Variable fs : filesystem.
Variable ignore_patterns : list string.

(** The filter of the comprehension on [dirs]. *)
Definition keep_dir (root d : string) : bool :=
  negb (should_ignore (relpath (join root d)) ignore_patterns).

(** The body of [for file in files]. *)
Definition visit_file (st : state) (root file : string) : outcome state :=
  let file_path := join root file in
  let rel_path := relpath file_path in
  if should_ignore rel_path ignore_patterns || negb (is_text_file file_path)
  then Return st
  else
    line_count <- count_lines fs file_path ;;
    if (0 <? line_count)%nat
    then Return (record st (categorize_file rel_path) (rel_path, line_count))
    else Return st.

(** The two nested loops, one iteration per (root, file). *)
Definition visits : list (string * string) :=
  flat_map (fun '(root, _, files) => map (pair root) files)
           (walk keep_dir root_dir (fs_root fs)).

Fixpoint run (st : state) (work : list (string * string)) : outcome state :=
  match work with
  | [] => Return st
  | (root, file) :: rest =>
      st' <- visit_file st root file ;;
      run st' rest
  end.

(** Every state the three lists go through, in order. *)
Fixpoint trace (st : state) (work : list (string * string)) : list state :=
  st ::
  match work with
  | [] => []
  | (root, file) :: rest =>
      match visit_file st root file with
      | Return st' => trace st' rest
      | Raise _ => []
      end
  end.

Definition collect : outcome state := run empty_state visits.

Definition collect_trace : list state := trace empty_state visits.

End Walker.

(** ** Sorting and printing *)

(** [list.sort(key=lambda x: x[1], reverse=True)]: a stable sort, largest
    count first; equal counts keep their order. *)
Fixpoint insert_desc (x : file_entry) (l : list file_entry) : list file_entry :=
  match l with
  | [] => [x]
  | y :: l' =>
      if (snd x <? snd y)%nat then y :: insert_desc x l' else x :: l
  end.

Fixpoint sort_desc (l : list file_entry) : list file_entry :=
  match l with
  | [] => []
  | x :: l' => insert_desc x (sort_desc l')
  end.

Definition nl : string := String LF "".

Definition print_file_list (title : string) (file_list : list file_entry)
  : list string :=
  match file_list with
  | [] => [nl ++ title ++ ": No files found"]
  | _ =>
      let total_lines := fold_left (fun t e => t + snd e) file_list 0 in
      let header :=
        [nl ++ title ++ ":";
         ljust "Lines" 8 ++ " " ++ "File";
         repeat_char "-" 60] in
      let rows :=
        map (fun e => ljust (of_nat (snd e)) 8 ++ " " ++ fst e) file_list in
      let footer :=
        [nl ++ "Files in " ++ lower title ++ ": "
            ++ of_nat (List.length file_list);
         "Total lines in " ++ lower title ++ ": " ++ of_nat total_lines] in
      (header ++ rows ++ footer)%list
  end.

Definition fixed_patterns : list string :=
  [".git/"; "__pycache__/"; "*.pyc"; ".DS_Store"; "node_modules/";
   ".vscode/"; ".idea/"; "*.log"].

(** [ignore_patterns] after [parse_gitignore] and [extend]. *)
Definition load_patterns (fs : filesystem) : outcome (list string) :=
  let gitignore_path := join root_dir ".gitignore" in
  ignore_patterns <- parse_gitignore fs gitignore_path ;;
  Return (ignore_patterns ++ fixed_patterns)%list.

(** The three lists as [main] holds them once sorted. *)
Definition sorted_lists (fs : filesystem) : outcome state :=
  ignore_patterns <- load_patterns fs ;;
  st <- collect fs ignore_patterns ;;
  Return {| client_files := sort_desc (client_files st);
            server_files := sort_desc (server_files st);
            other_files := sort_desc (other_files st) |}.

Definition total_files (st : state) : nat :=
  List.length (client_files st) + List.length (server_files st)
  + List.length (other_files st).

Definition total_lines (st : state) : nat :=
  list_sum (map snd (client_files st)) + list_sum (map snd (server_files st))
  + list_sum (map snd (other_files st)).

Definition print_report (st : state) : list string :=
  let banner :=
    [repeat_char "=" 60; "CODE ANALYSIS BY CATEGORY"; repeat_char "=" 60] in
  let summary :=
    [nl ++ repeat_char "=" 60; "OVERALL SUMMARY"; repeat_char "=" 60;
     "Total files analyzed: " ++ of_nat (total_files st);
     "Total lines of code: " ++ of_nat (total_lines st);
     "Client files: " ++ of_nat (List.length (client_files st));
     "Server files: " ++ of_nat (List.length (server_files st));
     "Other files: " ++ of_nat (List.length (other_files st))] in
  (banner
   ++ print_file_list "CLIENT FILES" (client_files st)
   ++ print_file_list "SERVER FILES" (server_files st)
   ++ print_file_list "OTHER FILES" (other_files st)
   ++ summary)%list.

(** [main]: the lines it prints, one per [print] call. *)
Definition main (fs : filesystem) : outcome (list string) :=
  st <- sorted_lists fs ;;
  Return (print_report st).

(** ** Notions used by the statements *)

(** The ignore file as the specification words it: the trimmed lines that
    are neither empty nor comments, in file order. *)
Definition is_pattern_line (line : string) : bool :=
  negb (String.eqb line "") && negb (startswith line "#").

Definition trimmed_pattern_lines (text : string) : list string :=
  filter is_pattern_line (map strip (file_lines text)).

(** Every record held has a count of at least one. *)
Definition counted (st : state) : Prop :=
  Forall (fun e : file_entry => 1 <= snd e) (all_records st).

(** The records of a list whose count is [k], in list order. *)
Definition with_count (k : nat) (l : list file_entry) : list file_entry :=
  filter (fun e => (snd e =? k)%nat) l.

(** The path [os.walk] gives the directory reached from the root through
    the directories [ds]. *)
Definition dir_path (ds : list string) : string := fold_left join ds root_dir.

(** [located e ds f]: in the tree [e], the file [f] lies in the directory
    reached through [ds]. *)
Inductive located : entry -> list string -> string -> Prop :=
| located_here (n : string) (es : list entry) (f : string) :
    In (File f) es -> located (Dir n es) [] f
| located_below (n : string) (es : list entry) (d : string)
    (children : list entry) (ds : list string) (f : string) :
    In (Dir d children) es ->
    located (Dir d children) ds f ->
    located (Dir n es) (d :: ds) f.

(** Every directory on the way down, the last included, is one the matcher
    keeps. *)
Definition never_ignored (ignore_patterns : list string) (ds : list string)
  : Prop :=
  forall k, 0 < k <= List.length ds ->
    should_ignore (relpath (dir_path (firstn k ds))) ignore_patterns = false.

(** Going down from [top] through [ds], every step passes the [keep] test of
    the walk. *)
Fixpoint kept_chain (keep : string -> string -> bool) (top : string)
    (ds : list string) : Prop :=
  match ds with
  | [] => True
  | d :: ds' => keep top d = true /\ kept_chain keep (join top d) ds'
  end.

(** Entry names as a filesystem has them: not empty, no separator inside. *)
Definition plain_name (n : string) : bool :=
  negb (String.eqb n "") && negb (has_char "/" n).

Definition entry_name (e : entry) : string :=
  match e with
  | File n => n
  | Dir n _ => n
  end.

Fixpoint plain_tree (e : entry) : bool :=
  match e with
  | File _ => true
  | Dir _ es => forallb (fun c => plain_name (entry_name c) && plain_tree c) es
  end.

(** A (root, file) pair the loops may rightly reach. *)
Definition visitable (fs : filesystem) (ignore_patterns : list string)
    (w : string * string) : Prop :=
  exists ds,
    fst w = dir_path ds
    /\ located (fs_root fs) ds (snd w)
    /\ never_ignored ignore_patterns ds.

(** Where a record comes from. *)
Definition provenance (fs : filesystem) (ignore_patterns : list string)
    (e : file_entry) : Prop :=
  exists ds f,
    fst e = relpath (join (dir_path ds) f)
    /\ located (fs_root fs) ds f
    /\ never_ignored ignore_patterns ds.

Definition ten_lines : string :=
  "1" ++ nl ++ "2" ++ nl ++ "3" ++ nl ++ "4" ++ nl ++ "5" ++ nl
  ++ "6" ++ nl ++ "7" ++ nl ++ "8" ++ nl ++ "9" ++ nl ++ "10".

(** The scenario on a listing in another order. *)
Definition scenario_fs : filesystem :=
  {| fs_root :=
       Dir "." [File "README.md"; Dir "server" [File "main.go"];
                File ".gitignore"; Dir "client" [File "app.ts"]];
     fs_exists := fun p => String.eqb p "./.gitignore";
     fs_read := fun p =>
       if String.eqb p "./client/app.ts" then Return ten_lines
       else if String.eqb p "./server/main.go"
       then Return (ten_lines ++ nl ++ ten_lines ++ nl)
       else if String.eqb p "./README.md"
       then Return ("a" ++ nl ++ "b" ++ nl ++ "c" ++ nl ++ "d" ++ nl ++ "e")
       else if String.eqb p "./.gitignore" then Return ("*.md" ++ nl)
       else Raise FileNotFoundError |}.

(** Membership of a (root, file) pair in a work list. *)
Definition same_visit (a b : string * string) : bool :=
  String.eqb (fst a) (fst b) && String.eqb (snd a) (snd b).

Definition has_visit (work : list (string * string)) (w : string * string)
  : bool :=
  existsb (same_visit w) work.

(** The tree of the end-to-end scenario, and the iterations it calls for. *)
Definition scenario_entries : list entry :=
  [Dir "client" [File "app.ts"]; Dir "server" [File "main.go"];
   File "README.md"; File ".gitignore"].

Definition scenario_patterns : list string :=
  ["*.md"; ".git/"; "__pycache__/"; "*.pyc"; ".DS_Store"; "node_modules/";
   ".vscode/"; ".idea/"; "*.log"].

Definition scenario_visits : list (string * string) :=
  [(".", "README.md"); (".", ".gitignore");
   ("./client", "app.ts"); ("./server", "main.go")].

Definition scenario_lists : state :=
  {| client_files := [("client/app.ts", 10)];
     server_files := [("server/main.go", 20)];
     other_files := [] |}.

Definition scenario_report : list string :=
  ["============================================================";
   "CODE ANALYSIS BY CATEGORY";
   "============================================================";
   nl ++ "CLIENT FILES:";
   "Lines    File";
   "------------------------------------------------------------";
   "10       client/app.ts";
   nl ++ "Files in client files: 1";
   "Total lines in client files: 10";
   nl ++ "SERVER FILES:";
   "Lines    File";
   "------------------------------------------------------------";
   "20       server/main.go";
   nl ++ "Files in server files: 1";
   "Total lines in server files: 20";
   nl ++ "OTHER FILES: No files found";
   nl ++ "============================================================";
   "OVERALL SUMMARY";
   "============================================================";
   "Total files analyzed: 2";
   "Total lines of code: 30";
   "Client files: 1";
   "Server files: 1";
   "Other files: 0"].

(** A small tree to run the script on. *)
Definition sample_fs : filesystem :=
  {| fs_root :=
       Dir "." [Dir "client" [File "app.ts"];
                Dir "server" [File "main.go"];
                File "README.md";
                File ".gitignore";
                Dir "node_modules" [Dir "left" [File "index.js"]]];
     fs_exists := fun p => String.eqb p "./.gitignore";
     fs_read := fun p =>
       if String.eqb p "./client/app.ts" then Return ten_lines
       else if String.eqb p "./server/main.go"
       then Return (ten_lines ++ nl ++ ten_lines ++ nl)
       else if String.eqb p "./README.md" then Return ("# readme" ++ nl)
       else if String.eqb p "./.gitignore"
       then Return ("# docs" ++ nl ++ "  *.md  " ++ String CR nl ++ nl)
       else if String.eqb p "./node_modules/left/index.js"
       then Return ten_lines
       else Raise FileNotFoundError |}.

(** ** Further notions *)

(** A pattern in which no character is special to the matcher. *)
Definition literal (s : string) : bool :=
  negb (has_char "*" s) && negb (has_char "?" s) && negb (has_char "[" s).

(** The list a category is kept in. *)
Definition files_of (c : category) (st : state) : list file_entry :=
  match c with
  | client => client_files st
  | server => server_files st
  | other => other_files st
  end.

(** How often a character occurs. *)
Fixpoint count_char (c : ascii) (s : string) : nat :=
  match s with
  | "" => 0
  | String a s' => (if Ascii.eqb a c then 1 else 0) + count_char c s'
  end.

(** A text whose last line has no line end. *)
Definition unterminated (s : string) : bool :=
  negb (String.eqb s "") && negb (endswith s nl).

Example ex_ignore_1 : should_ignore "x/build" ["build/"] = true.
Proof. reflexivity. Qed.
Example ex_ignore_2 : should_ignore "[a]" ["[a]/"] = false.
Proof. reflexivity. Qed.
Example ex_ignore_3 : should_ignore "a" ["[a]/"] = true.
Proof. reflexivity. Qed.
Example ex_ignore_4 : should_ignore "src\a.pyc" ["*.pyc"] = true.
Proof. reflexivity. Qed.
Example ex_ignore_5 : should_ignore "client" [".git/"; "*.md"] = false.
Proof. reflexivity. Qed.
Example ex_fn_1 : fnmatch "b" "[!a-]" = true.
Proof. reflexivity. Qed.
Example ex_fn_2 : fnmatch "a]" "[!]a]]" = false.
Proof. reflexivity. Qed.
Example ex_sfx : (suffix "./client/App.TS", suffix "./.gitignore", suffix "a.") = (".TS", "", "").
Proof. reflexivity. Qed.

(** ** Facts about the string helpers *)

Section StringFacts.

Lemma endswith_app (d p : string) : endswith (d ++ p) p = true.
Proof.
  induction d as [|c d IH]; simpl.
  - destruct p; cbn [append endswith]; rewrite String.eqb_refl; reflexivity.
  - rewrite IH. apply orb_true_r.
Qed.

Lemma has_char_app (c : ascii) (a b : string) :
  has_char c (a ++ b) = has_char c a || has_char c b.
Proof.
  induction a as [|x a IH]; simpl; [reflexivity|].
  rewrite IH. apply orb_assoc.
Qed.

Lemma endswith_has_char (c : ascii) (s : string) :
  endswith s (String c "") = true -> has_char c s = true.
Proof.
  induction s as [|a s IH]; cbn [endswith has_char]; [discriminate|].
  intros H. apply orb_true_iff in H. destruct H as [H|H].
  - apply String.eqb_eq in H. injection H as -> _.
    rewrite Ascii.eqb_refl. reflexivity.
  - rewrite (IH H). apply orb_true_r.
Qed.

Lemma basename_no_sep (p : string) : has_char "/" (basename p) = false.
Proof.
  induction p as [|c p IH]; [reflexivity|].
  cbn [basename].
  destruct (has_char "/" (String c p)) eqn:E; [exact IH|exact E].
Qed.

Lemma basename_split (p : string) :
  p = basename p \/ exists x, p = x ++ "/" ++ basename p.
Proof.
  induction p as [|c p IH]; [left; reflexivity|].
  cbn [basename].
  destruct (has_char "/" (String c p)) eqn:E; [|left; reflexivity].
  right. destruct IH as [IH|[x IH]].
  - destruct (Ascii.eqb_spec c "/") as [->|Hc].
    + exists "". cbn [append]. f_equal. exact IH.
    + cbn [has_char] in E. apply Ascii.eqb_neq in Hc.
      rewrite Hc, IH, basename_no_sep in E. discriminate.
  - exists (String c x). cbn [append]. f_equal. exact IH.
Qed.

End StringFacts.

(** ** Facts about the matcher *)

Section MatcherFacts.

Lemma match_star_unfold (ts : list tok) (s : string) :
  match_toks (TStar :: ts) s =
  match_toks ts s ||
  match s with
  | "" => false
  | String _ s' => match_toks (TStar :: ts) s'
  end.
Proof. destruct s; reflexivity. Qed.

(** A leading [*] swallows any prefix. *)
Lemma match_star_skip (ts : list tok) (x t : string) :
  match_toks ts t = true -> match_toks (TStar :: ts) (x ++ t) = true.
Proof.
  intros H. induction x as [|c x IH].
  - rewrite match_star_unfold. cbn [append]. rewrite H. reflexivity.
  - cbn [append]. rewrite match_star_unfold, IH. apply orb_true_r.
Qed.

(** A pattern without [[] matches itself, whatever follows. *)
Lemma translate_self (d : string) :
  has_char "[" d = false ->
  forall q t,
    match_toks (translate_from 0 q) t = true ->
    match_toks (translate_from 0 (d ++ q)) (d ++ t) = true.
Proof.
  induction d as [|c d IH]; intros Hd q t Hq; [exact Hq|].
  simpl in Hd. apply orb_false_iff in Hd. destruct Hd as [Hc Hd].
  specialize (IH Hd q t Hq).
  cbn [append translate_from].
  destruct (Ascii.eqb c "*") eqn:E1.
  { rewrite match_star_unfold. apply orb_true_iff. right.
    apply (match_star_skip _ "" _) in IH. exact IH. }
  destruct (Ascii.eqb c "?") eqn:E2.
  { simpl. exact IH. }
  rewrite Hc. simpl. rewrite Ascii.eqb_refl. exact IH.
Qed.

Lemma find_char_get (c : ascii) (s : string) (i : nat) :
  find_char c s = Some i -> String.get i s = Some c.
Proof.
  revert i. induction s as [|a s IH]; intros i; cbn [find_char];
    [discriminate|].
  destruct (Ascii.eqb_spec a c) as [->|_].
  - intros [= <-]. reflexivity.
  - destruct (find_char c s) as [k|]; [|discriminate].
    intros [= <-]. cbn [String.get]. apply IH. reflexivity.
Qed.

(** The index [close_index] returns is that of a [']']. *)
Lemma close_index_get (rest : string) (j : nat) :
  close_index rest = Some j -> String.get j rest = Some "]"%char.
Proof.
  unfold close_index.
  assert (G : forall r k n, option_map (Nat.add k) (find_char "]" r) = Some n ->
              exists m, n = k + m /\ String.get m r = Some "]"%char).
  { intros r k n H. destruct (find_char "]" r) as [m|] eqn:E; [|discriminate].
    injection H as <-. exists m. split; [reflexivity|].
    apply find_char_get, E. }
  destruct rest as [|a r]; [discriminate|].
  destruct (Ascii.eqb_spec a "!") as [->|Ha].
  - destruct r as [|b r']; [discriminate|].
    destruct (Ascii.eqb_spec b "]") as [->|Hb].
    + intros H. apply G in H. destruct H as (m & -> & Hm). exact Hm.
    + replace (match String b r' with
               | String "]" r0 => _ | _ => (1, String b r') end)
        with (1, String b r').
      2:{ destruct b as [[] [] [] [] [] [] [] []]; try reflexivity.
          contradiction Hb; reflexivity. }
      intros H. apply G in H. destruct H as (m & -> & Hm). exact Hm.
  - replace (match String a r with
             | String "!" r0 => (1, r0) | _ => (0, String a r) end)
      with (0, String a r).
    2:{ destruct a as [[] [] [] [] [] [] [] []]; try reflexivity.
        contradiction Ha; reflexivity. }
    destruct (Ascii.eqb_spec a "]") as [->|Hb].
    + intros H. apply G in H. destruct H as (m & -> & Hm). exact Hm.
    + replace (match String a r with
               | String "]" r0 => _ | _ => (0, String a r) end)
        with (0, String a r).
      2:{ destruct a as [[] [] [] [] [] [] [] []]; try reflexivity.
          contradiction Hb; reflexivity. }
      intros H. apply G in H. destruct H as (m & -> & Hm). exact Hm.
Qed.

(** A pattern that ends with [/] translates to tokens that end with the
    literal [/]: the last character is never inside a bracket
    expression. *)
Lemma translate_ends_sep (pat : string) :
  forall skip,
    skip_ok skip pat ->
    endswith pat "/" = true ->
    exists ts, translate_from skip pat = (ts ++ [TLit "/"])%list.
Proof.
  induction pat as [|c rest IH]; intros skip Hs He; [discriminate|].
  cbn [endswith] in He. apply orb_true_iff in He.
  destruct skip as [|k].
  - assert (Hlast : rest = "" -> c = "/"%char).
    { intros ->. destruct He as [He|He]; [|discriminate].
      apply String.eqb_eq in He. congruence. }
    assert (Hrest : rest <> "" -> endswith rest "/" = true).
    { intros Hn. destruct He as [He|He]; [|exact He].
      apply String.eqb_eq in He. congruence. }
    cbn [translate_from].
    destruct rest as [|c' rest'].
    + rewrite (Hlast eq_refl). exists []. reflexivity.
    + assert (Hr : endswith (String c' rest') "/" = true)
        by (apply Hrest; discriminate).
      destruct (Ascii.eqb c "*").
      { destruct (IH 0 I Hr) as [ts ->]. exists (TStar :: ts). reflexivity. }
      destruct (Ascii.eqb c "?").
      { destruct (IH 0 I Hr) as [ts ->]. exists (TAny :: ts). reflexivity. }
      destruct (Ascii.eqb c "[").
      { destruct (close_index (String c' rest')) as [j|] eqn:Ej.
        - destruct (IH (S j) (close_index_get _ _ Ej) Hr) as [ts ->].
          eexists (_ :: ts). reflexivity.
        - destruct (IH 0 I Hr) as [ts ->].
          exists (TLit "[" :: ts). reflexivity. }
      destruct (IH 0 I Hr) as [ts ->]. exists (TLit c :: ts). reflexivity.
  - cbn [translate_from]. cbn [skip_ok] in Hs.
    apply IH.
    + destruct k as [|k']; [exact I|]. exact Hs.
    + destruct He as [He|He]; [|exact He].
      apply String.eqb_eq in He. injection He as -> ->.
      destruct k; discriminate.
Qed.

(** Tokens that end with a literal only match strings that end with it. *)
Lemma match_ends_lit (c : ascii) (ts : list tok) :
  forall s,
    match_toks (ts ++ [TLit c])%list s = true ->
    endswith s (String c "") = true.
Proof.
  induction ts as [|t ts IH]; intros s.
  - destruct s as [|a [|b s]]; cbn; try discriminate.
    + rewrite andb_true_r. intros H. apply Ascii.eqb_eq in H. subst a.
      rewrite Ascii.eqb_refl. reflexivity.
    + rewrite andb_false_r. discriminate.
  - assert (Hstep : forall a s',
              match_toks (ts ++ [TLit c])%list s' = true ->
              endswith (String a s') (String c "") = true).
    { intros a s' H. cbn [endswith]. rewrite (IH s' H). apply orb_true_r. }
    destruct t.
    + change ((TStar :: ts) ++ [TLit c])%list
        with (TStar :: (ts ++ [TLit c]))%list.
      induction s as [|a s IHs]; rewrite match_star_unfold; intros H;
        apply orb_true_iff in H; destruct H as [H|H];
        try discriminate; try (apply IH; exact H).
      cbn [endswith]. rewrite (IHs H). apply orb_true_r.
    + destruct s as [|a s]; cbn [app match_toks]; intros H;
        [discriminate|].
      apply andb_true_iff in H. exact (Hstep a s (proj2 H)).
    + destruct s as [|a s]; cbn [app match_toks]; intros H;
        [discriminate|].
      apply andb_true_iff in H. exact (Hstep a s (proj2 H)).
    + destruct s as [|a s]; cbn [app match_toks]; intros H;
        [discriminate|].
      apply andb_true_iff in H. exact (Hstep a s (proj2 H)).
Qed.

(** No pattern that ends with [/] matches a name without one. *)
Lemma fnmatch_sep_pattern (name pat : string) :
  endswith pat "/" = true ->
  fnmatch name pat = true ->
  has_char "/" name = true.
Proof.
  intros He Hm. unfold fnmatch, translate in Hm.
  destruct (translate_ends_sep pat 0 I He) as [ts Hts].
  rewrite Hts in Hm. apply endswith_has_char.
  exact (match_ends_lit _ _ _ Hm).
Qed.

End MatcherFacts.

(** ** The matcher: directory patterns and basenames *)

Section ShouldIgnore.

Lemma should_ignore_loop_head_dir (p pattern : string) (rest : list string) :
  endswith pattern "/" = true ->
  fnmatch (p ++ "/") ("*/" ++ pattern) || fnmatch (p ++ "/") pattern = true ->
  should_ignore_loop p (pattern :: rest) = true.
Proof. intros He Hm. cbn [should_ignore_loop]. rewrite He, Hm. reflexivity. Qed.

Lemma should_ignore_loop_tail (p pattern : string) (rest : list string) :
  should_ignore_loop p rest = true ->
  should_ignore_loop p (pattern :: rest) = true.
Proof.
  intros H. cbn [should_ignore_loop]. rewrite H.
  repeat match goal with |- context [if ?b then _ else _] => destruct b end;
    reflexivity.
Qed.

(** Matching is monotone in the pattern list: one pattern whose own test
    succeeds is enough. *)
Lemma should_ignore_loop_in (p pattern : string) (patterns : list string) :
  In pattern patterns ->
  should_ignore_loop p [pattern] = true ->
  should_ignore_loop p patterns = true.
Proof.
  intros Hin H1. induction patterns as [|q rest IH]; [contradiction|].
  destruct Hin as [->|Hin].
  - cbn [should_ignore_loop] in H1 |- *.
    repeat match goal with
           | |- context [if ?b then _ else _] => destruct b
           | _ : context [if ?b then _ else _] |- _ => destruct b
           end; try reflexivity; discriminate.
  - apply should_ignore_loop_tail, IH, Hin.
Qed.

Lemma dir_pattern_exact (d : string) :
  has_char "[" d = false -> fnmatch (d ++ "/") (d ++ "/") = true.
Proof. intros Hd. apply (translate_self d Hd "/" "/"). reflexivity. Qed.

Lemma dir_pattern_segment (d x : string) :
  has_char "[" d = false ->
  fnmatch ((x ++ "/" ++ d) ++ "/") ("*/" ++ d ++ "/") = true.
Proof.
  intros Hd. unfold fnmatch, translate.
  change (translate_from 0 ("*/" ++ d ++ "/"))
    with (TStar :: TLit "/" :: translate_from 0 (d ++ "/")).
  replace ((x ++ "/" ++ d) ++ "/") with (x ++ String "/" (d ++ "/")).
  2:{ induction x as [|c x IH]; cbn [append]; [reflexivity|].
      f_equal. exact IH. }
  apply match_star_skip. cbn [match_toks tok_accepts].
  rewrite Ascii.eqb_refl. apply (dir_pattern_exact d Hd).
Qed.

End ShouldIgnore.

(** C1 (as amended).  If the pattern list holds a directory pattern [d/]
    whose [d] has no [[], every path that, once its separators are unified,
    is [d] or ends with the segment [/d] is ignored; so with [build/] in the
    list every path whose last segment is [build] is ignored. *)
Theorem dir_pattern_ignores_segment :
  (forall (S : list string) (d P : string),
      In (d ++ "/") S ->
      has_char "[" d = false ->
      replace_backslash P = d
      \/ (exists x, replace_backslash P = x ++ "/" ++ d) ->
      should_ignore P S = true)
  /\ (forall (S : list string) (P : string),
        In "build/" S ->
        basename (replace_backslash P) = "build" ->
        should_ignore P S = true).
Proof.
  assert (G : forall (S : list string) (d P : string),
             In (d ++ "/") S ->
             has_char "[" d = false ->
             replace_backslash P = d
             \/ (exists x, replace_backslash P = x ++ "/" ++ d) ->
             should_ignore P S = true).
  { intros S d P Hin Hd HP. unfold should_ignore.
    apply (should_ignore_loop_in _ (d ++ "/") _ Hin).
    apply should_ignore_loop_head_dir; [apply endswith_app|].
    apply orb_true_iff. destruct HP as [->|[x ->]].
    - right. apply dir_pattern_exact, Hd.
    - left. apply dir_pattern_segment, Hd. }
  split; [exact G|].
  intros S P Hin Hb. apply (G S "build" P Hin eq_refl).
  destruct (basename_split (replace_backslash P)) as [H|[x H]];
    rewrite Hb in H; [left; exact H|right; exists x; exact H].
Qed.

Lemma dir_pattern_ignores_segment_witness :
  should_ignore "out\[a]\obj" ["*.o"; "obj/"] = true
  /\ should_ignore "pkg/build" ["build/"] = true.
Proof.
  split.
  - apply (proj1 dir_pattern_ignores_segment ["*.o"; "obj/"] "obj" "out\[a]\obj").
    + simpl. right. left. reflexivity.
    + reflexivity.
    + right. exists "out/[a]". reflexivity.
  - apply (proj2 dir_pattern_ignores_segment ["build/"] "pkg/build").
    + simpl. left. reflexivity.
    + reflexivity.
Defined.

(** C1 as first stated fails for a [d] with a bracket expression: the
    pattern [[a]/] names the directory [a], not a directory called [[a]]. *)
Lemma dir_pattern_bracket_counterexample :
  In ("[a]" ++ "/") ["[a]/"]
  /\ replace_backslash "[a]" = "[a]"
  /\ should_ignore "[a]" ["[a]/"] = false
  /\ should_ignore "src/[a]" ["[a]/"] = false.
Proof. repeat split. simpl. left. reflexivity. Qed.

(** C2.  If the basename of the path matches some pattern of the list as a
    glob, the path is ignored, whatever the shape of that pattern. *)
Theorem basename_match_ignored :
  forall (P : string) (S : list string) (pattern : string),
    In pattern S ->
    fnmatch (basename (replace_backslash P)) pattern = true ->
    should_ignore P S = true.
Proof.
  intros P S pattern Hin Hm. unfold should_ignore.
  apply (should_ignore_loop_in _ pattern _ Hin).
  cbn [should_ignore_loop].
  destruct (endswith pattern "/") eqn:He.
  - apply (fnmatch_sep_pattern _ _ He) in Hm.
    rewrite basename_no_sep in Hm. discriminate.
  - rewrite Hm, orb_true_r. reflexivity.
Qed.

Lemma basename_match_ignored_witness :
  should_ignore "docs\api\notes.md" ["build/"; "doc?/*.md"; "*.md"] = true.
Proof.
  apply (basename_match_ignored _ _ "*.md").
  - simpl. right. right. left. reflexivity.
  - reflexivity.
Defined.

(** ** The sort *)

Section Sort.

Lemma insert_desc_perm (x : file_entry) (l : list file_entry) :
  Permutation (x :: l) (insert_desc x l).
Proof.
  induction l as [|y l IH]; cbn [insert_desc]; [reflexivity|].
  destruct (snd x <? snd y)%nat; [|reflexivity].
  rewrite perm_swap. apply perm_skip, IH.
Qed.

Lemma insert_desc_sorted (x : file_entry) (l : list file_entry) :
  StronglySorted (fun a b : file_entry => snd b <= snd a) l ->
  StronglySorted (fun a b : file_entry => snd b <= snd a) (insert_desc x l).
Proof.
  induction 1 as [|y l Hs IH Hy]; cbn [insert_desc].
  - repeat constructor.
  - destruct (Nat.ltb_spec (snd x) (snd y)) as [Hlt|Hge].
    + constructor; [exact IH|].
      apply (Permutation_Forall (insert_desc_perm x l)).
      constructor; [lia|exact Hy].
    + constructor; [constructor; assumption|].
      constructor; [exact Hge|].
      apply (Forall_impl _ (P := fun b : file_entry => snd b <= snd y));
        [intros b Hb; lia|exact Hy].
Qed.

(** The new record goes in front of the records of its own count. *)
Lemma insert_desc_with_count (k : nat) (x : file_entry) (l : list file_entry) :
  with_count k (insert_desc x l) = with_count k (x :: l).
Proof.
  unfold with_count.
  induction l as [|y l IH]; cbn [insert_desc]; [reflexivity|].
  destruct (Nat.ltb_spec (snd x) (snd y)) as [Hlt|Hge]; [|reflexivity].
  cbn [filter] in IH |- *. rewrite IH.
  destruct (Nat.eqb_spec (snd x) k) as [Hx|Hx]; [|reflexivity].
  destruct (Nat.eqb_spec (snd y) k) as [Hy|Hy]; [lia|reflexivity].
Qed.

Lemma sort_desc_perm (l : list file_entry) : Permutation l (sort_desc l).
Proof.
  induction l as [|x l IH]; cbn [sort_desc]; [constructor|].
  rewrite <- insert_desc_perm. apply perm_skip, IH.
Qed.

Lemma sort_desc_sorted (l : list file_entry) :
  StronglySorted (fun a b : file_entry => snd b <= snd a) (sort_desc l).
Proof.
  induction l as [|x l IH]; cbn [sort_desc]; [constructor|].
  apply insert_desc_sorted, IH.
Qed.

Lemma sort_desc_with_count (k : nat) (l : list file_entry) :
  with_count k (sort_desc l) = with_count k l.
Proof.
  induction l as [|x l IH]; cbn [sort_desc]; [reflexivity|].
  rewrite insert_desc_with_count.
  unfold with_count in *. cbn [filter]. rewrite IH. reflexivity.
Qed.

End Sort.

(** C4.  The sort of a category's list rearranges it into non-increasing
    order of line count and keeps records of equal count in the order they
    had. *)
Theorem sort_desc_stable :
  forall l : list file_entry,
    Permutation l (sort_desc l)
    /\ StronglySorted (fun a b : file_entry => snd b <= snd a) (sort_desc l)
    /\ (forall k, with_count k (sort_desc l) = with_count k l).
Proof.
  intros l. split; [apply sort_desc_perm|].
  split; [apply sort_desc_sorted|].
  intros k. apply sort_desc_with_count.
Qed.

(** ** Line counting *)

Section Lines.

Lemma universal_newlines_plain (s : string) :
  has_char CR s = false -> universal_newlines s = s.
Proof.
  induction s as [|c s IH]; cbn [has_char universal_newlines];
    [reflexivity|].
  intros H. apply orb_false_iff in H. destruct H as [Hc Hs].
  rewrite Hc, (IH Hs). reflexivity.
Qed.

Lemma split_lines_plain (c : ascii) (s : string) :
  has_char LF (String c s) = false -> split_lines (String c s) = [String c s].
Proof.
  revert c. induction s as [|a s IH]; intros c; cbn [has_char] in *; intros H;
    apply orb_false_iff in H; destruct H as [Hc Hs].
  - cbn [split_lines]. rewrite Hc. reflexivity.
  - cbn [split_lines] in *. rewrite Hc. cbn [has_char] in IH.
    rewrite (IH a Hs). reflexivity.
Qed.

Lemma one_line (text : string) :
  text <> "" ->
  has_char LF text = false ->
  has_char CR text = false ->
  file_lines text = [text].
Proof.
  intros Hne Hlf Hcr. unfold file_lines.
  rewrite (universal_newlines_plain _ Hcr).
  destruct text as [|c s]; [contradiction|].
  apply split_lines_plain, Hlf.
Qed.

End Lines.

(** C7.  [count_lines] gives 1 for a file that is one line without a line
    end, 0 for an empty file and 0 for a path that does not exist; whenever
    opening or reading fails with an [OSError] or a decoding error it
    returns 0 and raises nothing. *)
Theorem count_lines_contract :
  forall (fs : filesystem) (p : string),
    (forall text,
        fs_read fs p = Return text ->
        text <> "" -> has_char LF text = false -> has_char CR text = false ->
        count_lines fs p = Return 1)
    /\ (fs_read fs p = Return "" -> count_lines fs p = Return 0)
    /\ (fs_read fs p = Raise FileNotFoundError -> count_lines fs p = Return 0)
    /\ (forall e,
          fs_read fs p = Raise e ->
          is_OSError e = true \/ e = UnicodeDecodeError ->
          count_lines fs p = Return 0).
Proof.
  intros fs p. unfold count_lines. repeat split.
  - intros text -> Hne Hlf Hcr. cbn [bind try_except].
    rewrite (one_line text Hne Hlf Hcr). reflexivity.
  - intros ->. reflexivity.
  - intros ->. reflexivity.
  - intros e -> [He| ->]; cbn [bind try_except]; [rewrite He|]; reflexivity.
Qed.

Lemma count_lines_contract_witness :
  count_lines sample_fs "./LICENSE" = Return 0
  /\ count_lines
       {| fs_root := Dir "." [File "a.txt"];
          fs_exists := fun _ => true;
          fs_read := fun _ => Return "only line" |} "./a.txt" = Return 1
  /\ count_lines
       {| fs_root := Dir "." [File "a.txt"];
          fs_exists := fun _ => true;
          fs_read := fun _ => Return "" |} "./a.txt" = Return 0
  /\ count_lines
       {| fs_root := Dir "." [File "a.txt"];
          fs_exists := fun _ => true;
          fs_read := fun _ => Raise PermissionError |} "./a.txt" = Return 0.
Proof.
  split; [|split; [|split]].
  - apply (proj1 (proj2 (proj2 (count_lines_contract sample_fs "./LICENSE")))).
    reflexivity.
  - apply (proj1 (count_lines_contract _ "./a.txt") "only line");
      [reflexivity|discriminate|reflexivity|reflexivity].
  - apply (proj1 (proj2 (count_lines_contract _ "./a.txt"))). reflexivity.
  - apply (proj2 (proj2 (proj2 (count_lines_contract _ "./a.txt")))
             PermissionError); [reflexivity|left; reflexivity].
Defined.

(** ** Classification *)

Section Classify.

Lemma prefix_app (p s : string) :
  String.prefix p s = true <-> exists b, s = p ++ b.
Proof.
  revert s. induction p as [|c p IH]; intros s.
  - destruct s; cbn; (split; [intros _; eexists; reflexivity|reflexivity]).
  - destruct s as [|a s]; cbn [String.prefix append].
    + split; [discriminate|intros [b Hb]; discriminate].
    + destruct (ascii_dec c a) as [->|Hn].
      * rewrite IH. split; intros [b Hb]; exists b; congruence.
      * split; [discriminate|]. intros [b Hb]. congruence.
Qed.

Lemma contains_app (s p : string) :
  contains s p = true <-> exists a b, s = a ++ p ++ b.
Proof.
  induction s as [|c s IH]; cbn [contains].
  - rewrite orb_false_r, prefix_app. split.
    + intros [b Hb]. exists "", b. exact Hb.
    + intros (a & b & H). destruct a; [exists b; exact H|discriminate].
  - rewrite orb_true_iff, prefix_app, IH. split.
    + intros [[b Hb]|(a & b & H)].
      * exists "", b. exact Hb.
      * exists (String c a), b. cbn [append]. congruence.
    + intros (a & b & H). destruct a as [|c' a]; cbn [append] in H.
      * left. exists b. exact H.
      * right. exists a, b. congruence.
Qed.

End Classify.

(** C8.  [categorize_file] unifies the separators, lower-cases the path and
    answers [client] when the result contains [/client/] or starts with
    [client/], else [server] on the same test for [server], else [other];
    it answers on every path. *)
Theorem categorize_file_contract :
  (forall p : string,
      let n := lower (replace_backslash p) in
      let marked (m : string) :=
        (exists a b, n = a ++ ("/" ++ m ++ "/") ++ b)
        \/ (exists b, n = (m ++ "/") ++ b) in
      (categorize_file p = client <-> marked "client")
      /\ (categorize_file p = server <-> ~ marked "client" /\ marked "server")
      /\ (categorize_file p = other <-> ~ marked "client" /\ ~ marked "server"))
  /\ categorize_file "client/foo.go" = client
  /\ categorize_file "Server/Foo.TS" = server
  /\ categorize_file "lib/foo.py" = other.
Proof.
  split; [|repeat split].
  intros p n marked.
  assert (Hc : contains n "/client/" || startswith n "client/" = true
               <-> marked "client").
  { unfold marked, startswith.
    rewrite orb_true_iff, contains_app, prefix_app. reflexivity. }
  assert (Hs : contains n "/server/" || startswith n "server/" = true
               <-> marked "server").
  { unfold marked, startswith.
    rewrite orb_true_iff, contains_app, prefix_app. reflexivity. }
  unfold categorize_file. fold n.
  destruct (contains n "/client/" || startswith n "client/").
  - assert (Mc : marked "client") by (apply Hc; reflexivity).
    repeat split; intros; try discriminate; tauto.
  - assert (Mc : ~ marked "client")
      by (intros M; apply Hc in M; discriminate).
    destruct (contains n "/server/" || startswith n "server/").
    + assert (Ms : marked "server") by (apply Hs; reflexivity).
      repeat split; intros; try discriminate; tauto.
    + assert (Ms : ~ marked "server")
        by (intros M; apply Hs in M; discriminate).
      repeat split; intros; try discriminate; tauto.
Qed.

Lemma categorize_file_contract_witness :
  categorize_file "web\Client\App.TSX" = client.
Proof.
  apply (proj1 (proj1 categorize_file_contract "web\Client\App.TSX")).
  left. exists "web", "app.tsx". reflexivity.
Defined.

(** ** The pattern store *)

Section Patterns.

(** The loop of [parse_gitignore] appends, line after line, what the
    filter keeps. *)
Lemma parse_loop_filter (lines acc : list string) :
  fold_left parse_line lines acc
  = (acc ++ filter is_pattern_line (map strip lines))%list.
Proof.
  revert acc. induction lines as [|l lines IH]; intros acc;
    cbn [fold_left map filter].
  - rewrite app_nil_r. reflexivity.
  - rewrite IH. unfold parse_line. fold (is_pattern_line (strip l)).
    destruct (is_pattern_line (strip l)); [|reflexivity].
    rewrite <- app_assoc. reflexivity.
Qed.

End Patterns.

(** C9.  Without an ignore file the pattern store is empty; with one it
    holds the trimmed lines that are neither empty nor comments, in file
    order; the eight fixed patterns then follow the user's, whatever the
    file held. *)
Theorem pattern_store_contract :
  forall (fs : filesystem),
    (forall p, fs_exists fs p = false -> parse_gitignore fs p = Return [])
    /\ (forall p text,
          fs_exists fs p = true ->
          fs_read fs p = Return text ->
          parse_gitignore fs p = Return (trimmed_pattern_lines text))
    /\ (forall user,
          parse_gitignore fs "./.gitignore" = Return user ->
          load_patterns fs
          = Return (user ++ [".git/"; "__pycache__/"; "*.pyc"; ".DS_Store";
                             "node_modules/"; ".vscode/"; ".idea/"; "*.log"])%list)
    /\ List.length fixed_patterns = 8.
Proof.
  intros fs. split; [|split; [|split]].
  - intros p He. unfold parse_gitignore. rewrite He. reflexivity.
  - intros p text He Hr. unfold parse_gitignore. rewrite He, Hr.
    cbn [bind]. rewrite parse_loop_filter. reflexivity.
  - intros user Hu. unfold load_patterns.
    change (join root_dir ".gitignore") with "./.gitignore".
    rewrite Hu. reflexivity.
  - reflexivity.
Qed.

Lemma pattern_store_contract_witness :
  parse_gitignore sample_fs "./.hgignore" = Return []
  /\ parse_gitignore sample_fs "./.gitignore" = Return ["*.md"]
  /\ load_patterns sample_fs
     = Return ["*.md"; ".git/"; "__pycache__/"; "*.pyc"; ".DS_Store";
               "node_modules/"; ".vscode/"; ".idea/"; "*.log"].
Proof.
  split; [|split].
  - apply (proj1 (pattern_store_contract sample_fs)). reflexivity.
  - apply (proj1 (proj2 (pattern_store_contract sample_fs)) "./.gitignore"
             ("# docs" ++ nl ++ "  *.md  " ++ String CR nl ++ nl));
      reflexivity.
  - apply (proj1 (proj2 (proj2 (pattern_store_contract sample_fs))) ["*.md"]).
    reflexivity.
Defined.

(** ** Text files *)

Section TextFiles.

Lemma mem_true_In (x : string) (l : list string) : mem x l = true -> In x l.
Proof.
  unfold mem. rewrite existsb_exists. intros (y & Hy & E).
  apply String.eqb_eq in E. subst y. exact Hy.
Qed.

(** The allow-list is closed under lower-casing. *)
Lemma text_extensions_lower (e : string) :
  In e text_extensions -> mem (lower e) text_extensions = true.
Proof.
  assert (H : forallb (fun e => mem (lower e) text_extensions)
                      text_extensions = true) by (vm_compute; reflexivity).
  rewrite forallb_forall in H. exact (H e).
Qed.

End TextFiles.

(** C10.  The extension test ignores letter case: a path whose suffix equals
    an entry of the allow-list up to case is a text file. *)
Theorem is_text_file_ignores_case :
  forall (p e : string),
    In e text_extensions ->
    lower (suffix p) = lower e ->
    is_text_file p = true.
Proof.
  intros p e He Hs. unfold is_text_file. rewrite Hs.
  apply text_extensions_lower, He.
Qed.

Lemma is_text_file_ignores_case_witness :
  is_text_file "./tools/Build.PY" = true
  /\ is_text_file "./README.Md" = true
  /\ is_text_file "./client/App.TS" = true.
Proof.
  split; [|split].
  - apply (is_text_file_ignores_case _ ".py"); [|reflexivity].
    apply mem_true_In. reflexivity.
  - apply (is_text_file_ignores_case _ ".md"); [|reflexivity].
    apply mem_true_In. reflexivity.
  - apply (is_text_file_ignores_case _ ".ts"); [|reflexivity].
    apply mem_true_In. reflexivity.
Defined.

(** ** The walk *)

Section WalkFacts.

Lemma entry_ind (P : entry -> Prop) :
  (forall n, P (File n)) ->
  (forall n es, Forall P es -> P (Dir n es)) ->
  forall e, P e.
Proof.
  intros HF HD. fix IH 1. intros [n|n es]; [apply HF|].
  apply HD. induction es as [|c es IHes]; constructor;
    [apply IH|exact IHes].
Qed.

Lemma In_filenames (f : string) (es : list entry) :
  In f (filenames es) -> In (File f) es.
Proof.
  unfold filenames. rewrite in_flat_map. intros (c & Hc & Hf).
  destruct c as [g|d ch]; [|contradiction].
  destruct Hf as [<-|[]]. exact Hc.
Qed.

Variable keep : string -> string -> bool.

(** Whatever the walk lists was reached through kept directories only. *)
Lemma walk_listed (e : entry) :
  forall top t,
    In t (walk keep top e) ->
    exists ds,
      fst (fst t) = fold_left join ds top
      /\ kept_chain keep top ds
      /\ (forall f, In f (snd t) -> located e ds f).
Proof.
  induction e as [n|n es IH] using entry_ind; intros top t Ht;
    [contradiction|].
  cbn [walk] in Ht. destruct Ht as [<-|Ht].
  - exists []. repeat split. intros f Hf.
    apply located_here, In_filenames, Hf.
  - apply in_flat_map in Ht. destruct Ht as (c & Hc & Ht).
    rewrite Forall_forall in IH. specialize (IH c Hc).
    destruct c as [g|d ch]; [contradiction|].
    destruct (keep top d) eqn:Hk; [|contradiction].
    destruct (IH _ _ Ht) as (ds & Hp & Hch & Hloc).
    exists (d :: ds). repeat split; try assumption.
    intros f Hf. apply (located_below _ _ _ ch); [exact Hc|].
    apply Hloc, Hf.
Qed.

End WalkFacts.

Section WalkerFacts.

Variable fs : filesystem.
Variable ignore_patterns : list string.

Lemma kept_chain_never_ignored (ds : list string) :
  forall top k,
    kept_chain (keep_dir ignore_patterns) top ds ->
    0 < k <= List.length ds ->
    should_ignore (relpath (fold_left join (firstn k ds) top))
      ignore_patterns = false.
Proof.
  induction ds as [|d ds IH]; intros top k Hc Hk; cbn [List.length] in Hk;
    [lia|].
  destruct Hc as [Hd Hc]. destruct k as [|k]; [lia|].
  cbn [firstn fold_left]. destruct k as [|k].
  - cbn [firstn fold_left]. unfold keep_dir in Hd.
    apply negb_true_iff in Hd. exact Hd.
  - apply IH; [exact Hc|lia].
Qed.

(** A directory the walk lists has no ignored directory above it, and is
    not ignored itself. *)
Lemma walk_never_ignored (top : string) (dirs files : list string) :
  In (top, dirs, files) (walk (keep_dir ignore_patterns) root_dir (fs_root fs)) ->
  exists ds,
    top = dir_path ds
    /\ never_ignored ignore_patterns ds
    /\ (forall f, In f files -> located (fs_root fs) ds f).
Proof.
  intros H. apply walk_listed in H. destruct H as (ds & Hp & Hc & Hl).
  exists ds. repeat split; [exact Hp| |exact Hl].
  intros k Hk. apply kept_chain_never_ignored; assumption.
Qed.

Lemma visits_visitable :
  Forall (visitable fs ignore_patterns) (visits fs ignore_patterns).
Proof.
  apply Forall_forall. intros [root file] Hw. unfold visits in Hw.
  apply in_flat_map in Hw. destruct Hw as ([[top dirs] files] & Ht & Hw).
  apply in_map_iff in Hw. destruct Hw as (f & [= <- <-] & Hf).
  destruct (walk_never_ignored _ _ _ Ht) as (ds & Hp & Hn & Hl).
  exists ds. repeat split; [exact Hp|apply Hl, Hf|exact Hn].
Qed.

(** An iteration leaves the lists alone or appends one record, of the
    file at hand, with a count above zero. *)
Lemma visit_file_cases (st st' : state) (root file : string) :
  visit_file fs ignore_patterns st root file = Return st' ->
  st' = st
  \/ exists n,
       0 < n
       /\ st' = record st (categorize_file (relpath (join root file)))
                       (relpath (join root file), n).
Proof.
  unfold visit_file.
  destruct (should_ignore _ _ || negb _); [intros [= <-]; left; reflexivity|].
  destruct (count_lines fs (join root file)) as [n|e]; cbn [bind];
    [|discriminate].
  destruct (Nat.ltb_spec 0 n) as [Hn|Hn]; intros [= <-];
    [right; exists n; split; [exact Hn|reflexivity]|left; reflexivity].
Qed.

Lemma all_records_record (st : state) (c : category) (e x : file_entry) :
  In x (all_records (record st c e)) -> x = e \/ In x (all_records st).
Proof.
  unfold all_records. destruct c; cbn [record client_files server_files other_files];
    rewrite !in_app_iff; cbn [In]; intuition (subst; auto).
Qed.

(** A property of the lists that every iteration preserves holds all
    along the run. *)
Lemma trace_invariant (Inv : state -> Prop) (Good : string * string -> Prop) :
  (forall st st' root file,
      Inv st -> Good (root, file) ->
      visit_file fs ignore_patterns st root file = Return st' -> Inv st') ->
  forall work st,
    Forall Good work -> Inv st ->
    Forall Inv (trace fs ignore_patterns st work).
Proof.
  intros Hstep. induction work as [|[root file] work IH]; intros st Hg Hi;
    cbn [trace]; constructor; try exact Hi; try constructor.
  inversion Hg as [|w ws Hw Hws]; subst.
  destruct (visit_file fs ignore_patterns st root file) as [st'|e] eqn:Hv;
    [|constructor].
  apply IH; [exact Hws|]. exact (Hstep _ _ _ _ Hi Hw Hv).
Qed.

(** The result of the run is the last state of its trace. *)
Lemma run_in_trace (work : list (string * string)) :
  forall st st',
    run fs ignore_patterns st work = Return st' ->
    In st' (trace fs ignore_patterns st work).
Proof.
  induction work as [|[root file] work IH]; intros st st'; cbn [run trace].
  - intros [= <-]. left. reflexivity.
  - destruct (visit_file fs ignore_patterns st root file) as [st1|e];
      cbn [bind]; [|discriminate].
    intros H. right. apply IH, H.
Qed.

Lemma trace_counted : Forall counted (collect_trace fs ignore_patterns).
Proof.
  apply (trace_invariant counted (fun _ => True)).
  - intros st st' root file Hi _ Hv.
    destruct (visit_file_cases _ _ _ _ Hv) as [->|(n & Hn & ->)];
      [exact Hi|].
    apply Forall_forall. intros x Hx.
    apply all_records_record in Hx. destruct Hx as [->|Hx]; [exact Hn|].
    unfold counted in Hi. rewrite Forall_forall in Hi. apply Hi, Hx.
  - apply Forall_forall. intros; exact I.
  - constructor.
Qed.

Lemma trace_provenance :
  Forall (fun st => forall e, In e (all_records st) ->
                              provenance fs ignore_patterns e)
         (collect_trace fs ignore_patterns).
Proof.
  apply (trace_invariant _ (visitable fs ignore_patterns)).
  - intros st st' root file Hi (ds & Hp & Hl & Hn) Hv.
    destruct (visit_file_cases _ _ _ _ Hv) as [->|(n & _ & ->)];
      [exact Hi|].
    intros x Hx. apply all_records_record in Hx.
    destruct Hx as [->|Hx]; [|apply Hi, Hx].
    exists ds, file. cbn [fst snd] in *. rewrite <- Hp.
    repeat split; assumption.
  - apply visits_visitable.
  - intros e [].
Qed.

End WalkerFacts.

(** C6.  No record with a count of zero is ever held: at every point of the
    run, and in the lists the walk hands over, every count is at least
    one. *)
Theorem walker_never_records_zero :
  forall (fs : filesystem) (ignore_patterns : list string),
    Forall counted (collect_trace fs ignore_patterns)
    /\ (forall st, collect fs ignore_patterns = Return st -> counted st).
Proof.
  intros fs pats. split; [apply trace_counted|].
  intros st Hst. apply run_in_trace in Hst.
  pose proof (trace_counted fs pats) as H. rewrite Forall_forall in H.
  apply H, Hst.
Qed.

Lemma walker_never_records_zero_witness :
  counted {| client_files := [("client/app.ts", 10)];
             server_files := [("server/main.go", 20)];
             other_files := [] |}.
Proof.
  apply (proj2 (walker_never_records_zero sample_fs ["*.md"; "node_modules/"])).
  reflexivity.
Defined.

Section Report.

Variable fs : filesystem.

(** The sorted lists hold the records the walk collected, no other. *)
Lemma sorted_lists_records (ignore_patterns : list string) (st : state) :
  load_patterns fs = Return ignore_patterns ->
  sorted_lists fs = Return st ->
  exists st0,
    collect fs ignore_patterns = Return st0
    /\ forall e, In e (all_records st) -> In e (all_records st0).
Proof.
  intros Hl. unfold sorted_lists. rewrite Hl. cbn [bind].
  destruct (collect fs ignore_patterns) as [st0|x]; cbn [bind];
    [|discriminate].
  intros [= <-]. exists st0. split; [reflexivity|].
  unfold all_records. cbn [client_files server_files other_files].
  intros e. rewrite !in_app_iff.
  intros [H|[H|H]];
    apply (Permutation_in _ (Permutation_sym (sort_desc_perm _))) in H;
    tauto.
Qed.

End Report.

(** ** Paths of plain names *)

Section PlainPaths.

Lemma append_assoc (a b c : string) : (a ++ b) ++ c = a ++ b ++ c.
Proof. induction a as [|x a IH]; cbn [append]; [reflexivity|]. f_equal. exact IH. Qed.

Lemma endswith_app_nonempty (a b : string) (c p : ascii) :
  endswith (a ++ String c b) (String p "") = endswith (String c b) (String p "").
Proof.
  induction a as [|x a IH]; [reflexivity|].
  cbn [append]. change (endswith (String x (a ++ String c b)) (String p ""))
    with (String.eqb (String x (a ++ String c b)) (String p "")
          || endswith (a ++ String c b) (String p "")).
  rewrite IH.
  replace (String.eqb (String x (a ++ String c b)) (String p "")) with false;
    [reflexivity|].
  symmetry. apply String.eqb_neq. intros E. injection E as _ E.
  destruct a; discriminate.
Qed.

Lemma plain_name_inv (n : string) :
  plain_name n = true -> n <> "" /\ has_char "/" n = false.
Proof.
  unfold plain_name. rewrite andb_true_iff, !negb_true_iff.
  intros [H1 H2]. split; [apply String.eqb_neq, H1|exact H2].
Qed.

(** [os.path.join] glues a plain name on with one separator. *)
Lemma join_plain (a b : string) :
  a <> "" -> endswith a "/" = false -> plain_name b = true ->
  join a b = a ++ "/" ++ b
  /\ a ++ "/" ++ b <> ""
  /\ endswith (a ++ "/" ++ b) "/" = false.
Proof.
  intros Ha He Hb. apply plain_name_inv in Hb. destruct Hb as [Hb Hs].
  destruct b as [|c b]; [contradiction|].
  cbn [has_char] in Hs. apply orb_false_iff in Hs. destruct Hs as [Hc Hs].
  repeat split.
  - unfold join, startswith. cbn [String.prefix].
    destruct (ascii_dec "/" c) as [<-|_]; [discriminate|].
    apply String.eqb_neq in Ha. rewrite Ha, He. reflexivity.
  - destruct a; [contradiction|discriminate].
  - rewrite <- append_assoc. rewrite endswith_app_nonempty.
    apply not_true_is_false. intros H. apply endswith_has_char in H.
    cbn [has_char] in H. rewrite Hc, Hs in H. discriminate.
Qed.

Lemma fold_join_plain (ds : list string) :
  Forall (fun n => plain_name n = true) ds ->
  forall a, a <> "" -> endswith a "/" = false ->
    fold_left join ds a = String.concat "/" (a :: ds).
Proof.
  induction 1 as [|d ds Hd Hds IH]; intros a Ha He; [reflexivity|].
  destruct (join_plain a d Ha He Hd) as (Hj & Hn & He').
  cbn [fold_left]. rewrite Hj, (IH _ Hn He').
  destruct ds as [|d' ds]; cbn [String.concat]; [reflexivity|].
  rewrite !append_assoc. reflexivity.
Qed.

(** The relative path of what lies under the root through [segs]. *)
Lemma relpath_plain (segs : list string) :
  segs <> [] ->
  Forall (fun n => plain_name n = true) segs ->
  relpath (fold_left join segs root_dir) = String.concat "/" segs.
Proof.
  intros Hne Hp. rewrite (fold_join_plain segs Hp); [|discriminate|reflexivity].
  destruct segs as [|s segs]; [contradiction|]. reflexivity.
Qed.

Lemma sep_split_head (s x d rest : string) :
  has_char "/" s = false ->
  s ++ "/" ++ x = d ++ "/" ++ rest ->
  d = s \/ exists d', d = s ++ "/" ++ d' /\ x = d' ++ "/" ++ rest.
Proof.
  revert d. induction s as [|c s IH]; intros d Hs E.
  - destruct d as [|c' d]; [left; reflexivity|].
    cbn [append] in E. injection E as <- E. right. exists d.
    split; [reflexivity|exact E].
  - cbn [has_char] in Hs. apply orb_false_iff in Hs. destruct Hs as [Hc Hs].
    destruct d as [|c' d]; cbn [append] in E.
    + injection E as E _. subst c. discriminate.
    + injection E as <- E. destruct (IH d Hs E) as [->|(d' & -> & Hx)].
      * left. reflexivity.
      * right. exists d'. split; [reflexivity|exact Hx].
Qed.

(** A separator inside a path of plain names stands between two of them. *)
Lemma concat_split (segs : list string) :
  Forall (fun n => plain_name n = true) segs ->
  forall d rest,
    String.concat "/" segs = d ++ "/" ++ rest ->
    exists k, 0 < k < List.length segs /\ d = String.concat "/" (firstn k segs).
Proof.
  induction 1 as [|s segs Hs Hp IH]; intros d rest E.
  - destruct d; discriminate.
  - apply plain_name_inv in Hs. destruct Hs as [_ Hs].
    destruct segs as [|s' segs].
    + cbn [String.concat] in E. rewrite E, has_char_app in Hs.
      cbn [append has_char] in Hs. rewrite orb_true_r in Hs. discriminate.
    + change (String.concat "/" (s :: s' :: segs))
        with (s ++ "/" ++ String.concat "/" (s' :: segs)) in E.
      destruct (sep_split_head _ _ _ _ Hs E) as [->|(d' & -> & Hx)].
      * exists 1. cbn [List.length]. split; [lia|reflexivity].
      * destruct (IH _ _ Hx) as (k & Hk & ->).
        exists (S k). cbn [List.length] in *. split; [lia|].
        destruct k as [|k]; [lia|]. reflexivity.
Qed.

Lemma Forall_firstn {A : Type} (P : A -> Prop) (l : list A) :
  Forall P l -> forall k, Forall P (firstn k l).
Proof.
  induction 1 as [|x l Hx Hl IH]; intros [|k]; cbn [firstn];
    constructor; auto.
Qed.

Lemma located_plain (e : entry) (ds : list string) (f : string) :
  located e ds f ->
  plain_tree e = true ->
  Forall (fun n => plain_name n = true) (ds ++ [f])%list.
Proof.
  induction 1 as [n es f Hin|n es d ch ds f Hin Hl IH]; cbn [plain_tree];
    intros Hp; rewrite forallb_forall in Hp; specialize (Hp _ Hin);
    apply andb_true_iff in Hp; destruct Hp as [Hn Ht].
  - repeat constructor. exact Hn.
  - constructor; [exact Hn|apply IH, Ht].
Qed.

End PlainPaths.

Section Beneath.

Variable fs : filesystem.
Variable ignore_patterns : list string.
Hypothesis plain : plain_tree (fs_root fs) = true.

(** No directory part of a record's path is ignored. *)
Lemma provenance_prefix (e : file_entry) (d rest : string) :
  provenance fs ignore_patterns e ->
  fst e = d ++ "/" ++ rest ->
  should_ignore d ignore_patterns = false.
Proof.
  intros (ds & f & Hp & Hl & Hn) E.
  pose proof (located_plain _ _ _ Hl plain) as Hpl.
  assert (Hds : Forall (fun n => plain_name n = true) ds)
    by (apply Forall_app in Hpl; apply Hpl).
  change (join (dir_path ds) f) with (fold_left join [f] (dir_path ds)) in Hp.
  unfold dir_path in Hp. rewrite <- fold_left_app in Hp.
  rewrite relpath_plain in Hp; [|destruct ds; discriminate|exact Hpl].
  rewrite Hp in E. destruct (concat_split _ Hpl _ _ E) as (k & Hk & ->).
  rewrite length_app in Hk. cbn [List.length] in Hk.
  rewrite firstn_app. replace (k - List.length ds) with 0 by lia.
  cbn [firstn]. rewrite app_nil_r.
  rewrite <- relpath_plain.
  - apply Hn. lia.
  - destruct ds; [cbn in Hk; lia|]. destruct k; [lia|discriminate].
  - apply Forall_firstn, Hds.
Qed.

End Beneath.

(** C5.  The walk lists no directory that the matcher ignores or that lies
    beneath one it ignores; so every record held during the run, and every
    record of the report, is of a file reached through directories that are
    not ignored, and no directory part of a recorded path is ignored. *)
Theorem walker_prunes_ignored :
  forall (fs : filesystem) (ignore_patterns : list string),
    (forall top dirs files,
        In (top, dirs, files)
           (walk (keep_dir ignore_patterns) root_dir (fs_root fs)) ->
        exists ds, top = dir_path ds /\ never_ignored ignore_patterns ds)
    /\ (forall st e,
          In st (collect_trace fs ignore_patterns) ->
          In e (all_records st) ->
          provenance fs ignore_patterns e)
    /\ (forall st e,
          load_patterns fs = Return ignore_patterns ->
          sorted_lists fs = Return st ->
          In e (all_records st) ->
          provenance fs ignore_patterns e)
    /\ (plain_tree (fs_root fs) = true ->
        forall st e d rest,
          In st (collect_trace fs ignore_patterns) ->
          In e (all_records st) ->
          fst e = d ++ "/" ++ rest ->
          should_ignore d ignore_patterns = false).
Proof.
  intros fs pats.
  pose proof (trace_provenance fs pats) as HT. rewrite Forall_forall in HT.
  split; [|split; [|split]].
  - intros top dirs files H.
    destruct (walk_never_ignored _ _ _ _ _ H) as (ds & Hp & Hn & _).
    exists ds. split; assumption.
  - intros st e Hst He. exact (HT st Hst e He).
  - intros st e Hl Hs He.
    destruct (sorted_lists_records fs pats st Hl Hs) as (st0 & Hc & Hin).
    apply run_in_trace in Hc. exact (HT st0 Hc e (Hin e He)).
  - intros Hp st e d rest Hst He E.
    exact (provenance_prefix fs pats Hp e d rest (HT st Hst e He) E).
Qed.

Lemma walker_prunes_ignored_witness :
  provenance sample_fs scenario_patterns ("server/main.go", 20)
  /\ should_ignore "server" scenario_patterns = false.
Proof.
  split.
  - apply (proj1 (proj2 (proj2 (walker_prunes_ignored sample_fs _)))
             {| client_files := [("client/app.ts", 10)];
                server_files := [("server/main.go", 20)];
                other_files := [] |}).
    + reflexivity.
    + reflexivity.
    + simpl. right. left. reflexivity.
  - apply (proj2 (proj2 (proj2 (walker_prunes_ignored sample_fs scenario_patterns)))
             eq_refl
             {| client_files := [("client/app.ts", 10)];
                server_files := [("server/main.go", 20)];
                other_files := [] |}
             ("server/main.go", 20) "server" "main.go").
    + apply (run_in_trace sample_fs scenario_patterns). reflexivity.
    + simpl. right. left. reflexivity.
    + reflexivity.
Defined.

(** The files under [node_modules] of the sample tree are never met. *)
Example sample_walk :
  visits sample_fs scenario_patterns
  = [(".", "README.md"); (".", ".gitignore");
     ("./client", "app.ts"); ("./server", "main.go")]
  /\ sorted_lists sample_fs = Return scenario_lists.
Proof. split; reflexivity. Qed.

Section Returns.

Variable fs : filesystem.
Variable ignore_patterns : list string.

(** Reading raises nothing but what [count_lines] catches. *)
Hypothesis read_errors :
  forall p e, fs_read fs p = Raise e ->
              is_OSError e = true \/ e = UnicodeDecodeError.




End Returns.

(** ** The end-to-end scenario *)

Section VisitFacts.

Variable fs : filesystem.
Variable ignore_patterns : list string.

Lemma visit_file_skipped (st : state) (root file : string) :
  should_ignore (relpath (join root file)) ignore_patterns
  || negb (is_text_file (join root file)) = true ->
  visit_file fs ignore_patterns st root file = Return st.
Proof. intros H. unfold visit_file. rewrite H. reflexivity. Qed.

Lemma visit_file_recorded (st : state) (root file : string) (n : nat) :
  should_ignore (relpath (join root file)) ignore_patterns
  || negb (is_text_file (join root file)) = false ->
  count_lines fs (join root file) = Return (S n) ->
  visit_file fs ignore_patterns st root file
  = Return (record st (categorize_file (relpath (join root file)))
                   (relpath (join root file), S n)).
Proof. intros H Hc. unfold visit_file. rewrite H, Hc. reflexivity. Qed.

Lemma count_lines_read (p text : string) :
  fs_read fs p = Return text ->
  count_lines fs p = Return (List.length (file_lines text)).
Proof. intros H. unfold count_lines. rewrite H. reflexivity. Qed.

End VisitFacts.

Section Scenario.

Variable fs : filesystem.
Variables app main_go gitignore : string.
Variable root_name : string.
Variable es : list entry.

Hypothesis tree : fs_root fs = Dir root_name es.
Hypothesis listing : Permutation es scenario_entries.
Hypothesis ignore_exists : fs_exists fs "./.gitignore" = true.
Hypothesis ignore_text : fs_read fs "./.gitignore" = Return gitignore.
Hypothesis ignore_lines : trimmed_pattern_lines gitignore = ["*.md"].
Hypothesis app_text : fs_read fs "./client/app.ts" = Return app.
Hypothesis app_lines : List.length (file_lines app) = 10.
Hypothesis main_text : fs_read fs "./server/main.go" = Return main_go.
Hypothesis main_lines : List.length (file_lines main_go) = 20.

Lemma scenario_load : load_patterns fs = Return scenario_patterns.
Proof.
  unfold load_patterns, parse_gitignore.
  change (join root_dir ".gitignore") with "./.gitignore".
  rewrite ignore_exists, ignore_text. cbn [bind].
  rewrite parse_loop_filter. fold (trimmed_pattern_lines gitignore).
  rewrite ignore_lines. reflexivity.
Qed.

(** Whatever the order of the listing, the loops meet the same four
    files. *)
Lemma scenario_work :
  Permutation (visits fs scenario_patterns) scenario_visits.
Proof.
  unfold visits. rewrite tree. cbn [walk flat_map].
  change scenario_visits
    with ([(".", "README.md"); (".", ".gitignore")]
          ++ [("./client", "app.ts"); ("./server", "main.go")])%list.
  apply Permutation_app.
  - unfold filenames. rewrite (Permutation_flat_map _ listing).
    reflexivity.
  - rewrite (Permutation_flat_map _ (Permutation_flat_map _ listing)).
    reflexivity.
Qed.

Lemma has_visit_absent (work : list (string * string)) (w : string * string) :
  ~ In w work -> has_visit work w = false.
Proof.
  intros Hn. unfold has_visit. apply not_true_is_false. intros H.
  apply existsb_exists in H. destruct H as ([r f] & Hin & He).
  unfold same_visit in He. cbn [fst snd] in He.
  apply andb_true_iff in He. destruct He as [H1 H2].
  apply String.eqb_eq in H1, H2. destruct w as [r' f']. cbn [fst snd] in *.
  subst. contradiction.
Qed.

Lemma has_visit_present (work : list (string * string)) (w : string * string) :
  In w work -> has_visit work w = true.
Proof.
  intros H. unfold has_visit. apply existsb_exists. exists w.
  split; [exact H|]. unfold same_visit. rewrite !String.eqb_refl. reflexivity.
Qed.

(** The lists after any run over distinct files of the scenario. *)
Lemma scenario_run (work : list (string * string)) :
  forall st,
    NoDup work ->
    incl work scenario_visits ->
    run fs scenario_patterns st work
    = Return
        {| client_files :=
             (client_files st
              ++ if has_visit work ("./client", "app.ts")
                 then [("client/app.ts", 10)] else [])%list;
           server_files :=
             (server_files st
              ++ if has_visit work ("./server", "main.go")
                 then [("server/main.go", 20)] else [])%list;
           other_files := other_files st |}.
Proof.
  induction work as [|w work IH]; intros st Hnd Hin.
  - cbn [run has_visit existsb]. rewrite !app_nil_r.
    destruct st; reflexivity.
  - inversion Hnd as [|w' work' Hw Hnd']; subst.
    assert (Hin' : incl work scenario_visits)
      by (intros x Hx; apply Hin; right; exact Hx).
    specialize (Hin w (or_introl eq_refl)).
    destruct Hin as [<-|[<-|[<-|[<-|[]]]]]; cbn [run].
    + rewrite visit_file_skipped by reflexivity. cbn [bind].
      rewrite (IH st Hnd' Hin'). reflexivity.
    + rewrite visit_file_skipped by reflexivity. cbn [bind].
      rewrite (IH st Hnd' Hin'). reflexivity.
    + rewrite (visit_file_recorded _ _ _ _ _ 9); [|reflexivity|].
      2:{ change (count_lines fs "./client/app.ts" = Return 10).
          rewrite (count_lines_read _ _ _ app_text), app_lines.
          reflexivity. }
      cbn [bind]. rewrite (IH _ Hnd' Hin').
      rewrite (has_visit_absent _ _ Hw).
      unfold has_visit. cbn [existsb].
      change (same_visit ("./client", "app.ts") ("./client", "app.ts"))
        with true.
      change (same_visit ("./server", "main.go") ("./client", "app.ts"))
        with false.
      change (categorize_file (relpath (join "./client" "app.ts")))
        with client.
      change (relpath (join "./client" "app.ts")) with "client/app.ts".
      cbn [orb record client_files server_files other_files].
      rewrite app_nil_r. reflexivity.
    + rewrite (visit_file_recorded _ _ _ _ _ 19); [|reflexivity|].
      2:{ change (count_lines fs "./server/main.go" = Return 20).
          rewrite (count_lines_read _ _ _ main_text), main_lines.
          reflexivity. }
      cbn [bind]. rewrite (IH _ Hnd' Hin').
      rewrite (has_visit_absent _ _ Hw).
      unfold has_visit. cbn [existsb].
      change (same_visit ("./server", "main.go") ("./server", "main.go"))
        with true.
      change (same_visit ("./client", "app.ts") ("./server", "main.go"))
        with false.
      change (categorize_file (relpath (join "./server" "main.go")))
        with server.
      change (relpath (join "./server" "main.go")) with "server/main.go".
      cbn [orb record client_files server_files other_files].
      rewrite app_nil_r. reflexivity.
Qed.

Lemma scenario_collect : collect fs scenario_patterns = Return scenario_lists.
Proof.
  unfold collect.
  assert (Hp := scenario_work).
  rewrite scenario_run.
  - rewrite !has_visit_present; [reflexivity| |].
    + apply (Permutation_in _ (Permutation_sym Hp)). simpl. tauto.
    + apply (Permutation_in _ (Permutation_sym Hp)). simpl. tauto.
  - apply (Permutation_NoDup (Permutation_sym Hp)).
    repeat constructor; simpl; intuition discriminate.
  - intros x Hx. apply (Permutation_in _ Hp), Hx.
Qed.

Lemma scenario_sorted_lists : sorted_lists fs = Return scenario_lists.
Proof.
  unfold sorted_lists. rewrite scenario_load. cbn [bind].
  rewrite scenario_collect. reflexivity.
Qed.

End Scenario.

(** C3.  On a tree that holds [client/app.ts] with 10 lines,
    [server/main.go] with 20 lines, [README.md] and an ignore file whose
    one pattern is [*.md], listed in any order, the sorted lists are one
    client record of 10 lines, one server record of 20 lines and no other
    record, and the report printed says so: 2 files and 30 lines in all. *)
Theorem end_to_end_report :
  forall (fs : filesystem) (root_name : string) (es : list entry)
         (app main_go gitignore : string),
    fs_root fs = Dir root_name es ->
    Permutation es scenario_entries ->
    fs_exists fs "./.gitignore" = true ->
    fs_read fs "./.gitignore" = Return gitignore ->
    trimmed_pattern_lines gitignore = ["*.md"] ->
    fs_read fs "./client/app.ts" = Return app ->
    List.length (file_lines app) = 10 ->
    fs_read fs "./server/main.go" = Return main_go ->
    List.length (file_lines main_go) = 20 ->
    sorted_lists fs = Return scenario_lists
    /\ main fs = Return scenario_report.
Proof.
  intros fs root_name es app main_go gitignore Ht Hp He Hg Hl Ha Hal Hm Hml.
  assert (Hs : sorted_lists fs = Return scenario_lists)
    by (apply (scenario_sorted_lists fs app main_go gitignore root_name es);
        assumption).
  split; [exact Hs|].
  unfold main. rewrite Hs. reflexivity.
Qed.

Lemma end_to_end_report_witness :
  sorted_lists scenario_fs = Return scenario_lists
  /\ main scenario_fs = Return scenario_report.
Proof.
  apply (end_to_end_report scenario_fs "."
           [File "README.md"; Dir "server" [File "main.go"];
            File ".gitignore"; Dir "client" [File "app.ts"]]
           ten_lines (ten_lines ++ nl ++ ten_lines ++ nl) ("*.md" ++ nl));
    try reflexivity.
  apply Permutation_sym.
  apply (Permutation_cons_app [File "README.md"; Dir "server" [File "main.go"];
                               File ".gitignore"] []).
  apply (Permutation_cons_app [File "README.md"] [File ".gitignore"]).
  reflexivity.
Defined.


(** * Further properties *)

(** ** Literal patterns *)

Section LiteralPatterns.

Lemma literal_inv (c : ascii) (s : string) :
  literal (String c s) = true ->
  Ascii.eqb c "*" = false /\ Ascii.eqb c "?" = false
  /\ Ascii.eqb c "[" = false /\ literal s = true.
Proof.
  unfold literal. cbn [has_char]. rewrite !andb_true_iff, !negb_true_iff.
  rewrite !orb_false_iff. intros [[[H1 H2] [H3 H4]] [H5 H6]].
  rewrite H2, H4, H6. repeat split; assumption.
Qed.

(** A literal pattern matches its own text and nothing else. *)
Lemma match_literal (s : string) :
  literal s = true ->
  forall t, match_toks (translate_from 0 s) t = String.eqb t s.
Proof.
  induction s as [|c s IH]; intros Hl t.
  - destruct t; reflexivity.
  - apply literal_inv in Hl. destruct Hl as (H1 & H2 & H3 & Hl).
    cbn [translate_from]. rewrite H1, H2, H3.
    destruct t as [|a t]; [reflexivity|].
    cbn [match_toks tok_accepts String.eqb]. rewrite (IH Hl).
    rewrite (Ascii.eqb_sym c a). destruct (Ascii.eqb a c); reflexivity.
Qed.

(** [*] in front of a literal asks for that ending. *)
Lemma match_star_literal (s : string) :
  literal s = true ->
  forall t, match_toks (TStar :: translate_from 0 s) t = endswith t s.
Proof.
  intros Hl. induction t as [|a t IH]; rewrite match_star_unfold;
    cbn [endswith]; rewrite (match_literal s Hl); [reflexivity|].
  rewrite IH. reflexivity.
Qed.

(** Tokens that end with an exact match of [s] only match strings that end
    with [s]. *)
Lemma match_ends_with (s : string) (ls : list tok) :
  (forall t, match_toks ls t = String.eqb t s) ->
  forall ts t, match_toks (ts ++ ls)%list t = true -> endswith t s = true.
Proof.
  intros Hls. induction ts as [|t0 ts IH]; intros t.
  - cbn [app]. rewrite Hls. intros H. destruct t; cbn [endswith];
      rewrite H; reflexivity.
  - assert (Hstep : forall a t',
              match_toks (ts ++ ls)%list t' = true ->
              endswith (String a t') s = true).
    { intros a t' H. cbn [endswith]. rewrite (IH t' H). apply orb_true_r. }
    destruct t0.
    + change ((TStar :: ts) ++ ls)%list with (TStar :: (ts ++ ls))%list.
      induction t as [|a t IHt]; rewrite match_star_unfold; intros H;
        apply orb_true_iff in H; destruct H as [H|H];
        try discriminate; try (apply IH; exact H).
      cbn [endswith]. rewrite (IHt H). apply orb_true_r.
    + destruct t as [|a t]; cbn [app match_toks]; intros H; [discriminate|].
      apply andb_true_iff in H. exact (Hstep a t (proj2 H)).
    + destruct t as [|a t]; cbn [app match_toks]; intros H; [discriminate|].
      apply andb_true_iff in H. exact (Hstep a t (proj2 H)).
    + destruct t as [|a t]; cbn [app match_toks]; intros H; [discriminate|].
      apply andb_true_iff in H. exact (Hstep a t (proj2 H)).
Qed.

Lemma endswith_iff (s p : string) :
  endswith s p = true <-> exists x, s = x ++ p.
Proof.
  induction s as [|c s IH]; cbn [endswith].
  - rewrite orb_false_r, String.eqb_eq. split.
    + intros <-. exists "". reflexivity.
    + intros [x Hx]. destruct x; [exact Hx|discriminate].
  - rewrite orb_true_iff, String.eqb_eq, IH. split.
    + intros [<-|[x ->]]; [exists ""|exists (String c x)]; reflexivity.
    + intros [[|a x] Hx]; [left; exact Hx|].
      right. exists x. cbn [append] in Hx. congruence.
Qed.

Lemma endswith_trans (a b c : string) :
  endswith a b = true -> endswith b c = true -> endswith a c = true.
Proof.
  rewrite !endswith_iff. intros [x ->] [y ->]. exists (x ++ y).
  symmetry. apply append_assoc.
Qed.

Lemma endswith_basename (p : string) : endswith p (basename p) = true.
Proof.
  apply endswith_iff. destruct (basename_split p) as [H|[x H]].
  - exists "". exact H.
  - exists (x ++ "/"). rewrite append_assoc. exact H.
Qed.

Lemma basename_plain (p : string) : has_char "/" p = false -> basename p = p.
Proof. destruct p as [|c p]; [reflexivity|]. cbn [basename]. intros ->. reflexivity. Qed.

Lemma contains_sep (s : string) : contains s "/" = has_char "/" s.
Proof.
  induction s as [|c s IH]; [reflexivity|].
  cbn [contains has_char String.prefix]. rewrite IH.
  destruct (ascii_dec "/" c) as [<-|Hn].
  - destruct s; reflexivity.
  - apply not_eq_sym in Hn. apply Ascii.eqb_neq in Hn. rewrite Hn. reflexivity.
Qed.

Lemma has_char_replace_backslash (p : string) :
  has_char "\" (replace_backslash p) = false.
Proof.
  induction p as [|c p IH]; [reflexivity|].
  cbn [replace_backslash has_char]. rewrite IH, orb_false_r.
  unfold unify_sep. destruct (Ascii.eqb c "\") eqn:E; [reflexivity|exact E].
Qed.

Lemma has_char_basename (c : ascii) (p : string) :
  has_char c (basename p) = true -> has_char c p = true.
Proof.
  intros H. pose proof (endswith_basename p) as E.
  apply endswith_iff in E. destruct E as [x E]. rewrite E, has_char_app, H.
  apply orb_true_r.
Qed.

(** What a pattern without [[] holds that is neither [*] nor [?] must occur
    in whatever it matches. *)
Lemma match_needs_char (c : ascii) (pat : string) :
  Ascii.eqb c "*" = false -> Ascii.eqb c "?" = false ->
  has_char "[" pat = false ->
  has_char c pat = true ->
  forall t, match_toks (translate_from 0 pat) t = true -> has_char c t = true.
Proof.
  intros Hs Hq. induction pat as [|a pat IH]; intros Hb Hc t; [discriminate|].
  cbn [has_char] in Hb, Hc. apply orb_false_iff in Hb. destruct Hb as [Ha Hb].
  cbn [translate_from].
  destruct (Ascii.eqb_spec a "*") as [->|_].
  { rewrite Ascii.eqb_sym, Hs in Hc. cbn [orb] in Hc.
    induction t as [|x t IHt]; rewrite match_star_unfold; intros H;
      apply orb_true_iff in H; destruct H as [H|H]; try discriminate;
      try (apply (IH Hb Hc); exact H).
    cbn [has_char]. rewrite (IHt H). apply orb_true_r. }
  destruct (Ascii.eqb_spec a "?") as [->|_].
  { rewrite Ascii.eqb_sym, Hq in Hc. cbn [orb] in Hc.
    destruct t as [|x t]; cbn [match_toks tok_accepts]; intros H;
      [discriminate|].
    cbn [has_char]. rewrite (IH Hb Hc t H). apply orb_true_r. }
  rewrite Ha. destruct t as [|x t]; cbn [match_toks tok_accepts]; intros H;
    [discriminate|].
  apply andb_true_iff in H. destruct H as [Hx H]. cbn [has_char].
  apply orb_true_iff in Hc. destruct Hc as [Hc|Hc].
  - apply Ascii.eqb_eq in Hx. subst x. rewrite Hc. reflexivity.
  - rewrite (IH Hb Hc t H). apply orb_true_r.
Qed.

End LiteralPatterns.

(** ** One pattern at a time *)

Section PatternLists.

Lemma should_ignore_loop_dir (p pattern : string) :
  endswith pattern "/" = true ->
  should_ignore_loop p [pattern]
  = fnmatch (p ++ "/") ("*/" ++ pattern) || fnmatch (p ++ "/") pattern.
Proof.
  intros He. cbn [should_ignore_loop]. rewrite He.
  destruct (_ || _); reflexivity.
Qed.

Lemma should_ignore_loop_file (p pattern : string) :
  endswith pattern "/" = false ->
  should_ignore_loop p [pattern]
  = fnmatch p pattern || fnmatch (basename p) pattern
    || (contains pattern "/" && fnmatch p ("*/" ++ pattern)).
Proof.
  intros He. cbn [should_ignore_loop]. rewrite He.
  destruct (fnmatch p pattern || fnmatch (basename p) pattern);
    [reflexivity|].
  destruct (_ && _); reflexivity.
Qed.

Lemma should_ignore_loop_existsb (p : string) (patterns : list string) :
  should_ignore_loop p patterns
  = existsb (fun pattern => should_ignore_loop p [pattern]) patterns.
Proof.
  induction patterns as [|q rest IH]; [reflexivity|].
  cbn [existsb]. rewrite <- IH. cbn [should_ignore_loop].
  repeat match goal with |- context [if ?b then _ else _] => destruct b end;
    reflexivity.
Qed.

Lemma existsb_perm {A : Type} (f : A -> bool) (l l' : list A) :
  Permutation l l' -> existsb f l = existsb f l'.
Proof.
  induction 1 as [|x l l' _ IH|x y l|l l' l'' _ IH1 _ IH2]; cbn [existsb].
  - reflexivity.
  - rewrite IH. reflexivity.
  - destruct (f x), (f y); reflexivity.
  - rewrite IH1. exact IH2.
Qed.

Lemma dir_pattern_loop (d p : string) (patterns : list string) :
  has_char "[" d = false ->
  In (d ++ "/") patterns ->
  p = d \/ (exists x, p = x ++ "/" ++ d) ->
  should_ignore_loop p patterns = true.
Proof.
  intros Hd Hin Hp. apply (should_ignore_loop_in _ (d ++ "/") _ Hin).
  apply should_ignore_loop_head_dir; [apply endswith_app|].
  apply orb_true_iff. destruct Hp as [->|[x ->]].
  - right. apply dir_pattern_exact, Hd.
  - left. apply dir_pattern_segment, Hd.
Qed.

Lemma literal_app (a b : string) : literal (a ++ b) = literal a && literal b.
Proof.
  unfold literal. rewrite !has_char_app.
  destruct (has_char "*" a), (has_char "?" a), (has_char "[" a),
    (has_char "*" b), (has_char "?" b), (has_char "[" b); reflexivity.
Qed.

Lemma literal_no_bracket (s : string) : literal s = true -> has_char "[" s = false.
Proof.
  unfold literal. rewrite !andb_true_iff, !negb_true_iff. tauto.
Qed.

Lemma length_append (a b : string) :
  String.length (a ++ b) = String.length a + String.length b.
Proof. induction a as [|c a IH]; cbn; [reflexivity|]. rewrite IH. reflexivity. Qed.

Lemma append_inv_tail (a b c : string) : a ++ c = b ++ c -> a = b.
Proof.
  revert b. induction a as [|x a IH]; intros [|y b] E; cbn [append] in E.
  - reflexivity.
  - apply (f_equal String.length) in E. cbn [String.length] in E.
    rewrite length_append in E. lia.
  - apply (f_equal String.length) in E. cbn [String.length] in E.
    rewrite length_append in E. lia.
  - injection E as -> E. f_equal. apply IH, E.
Qed.

(** A pattern with a backslash and no bracket matches no name that is free
    of backslashes, with or without [*/] in front. *)
Lemma fnmatch_backslash (t pat : string) :
  has_char "[" pat = false ->
  has_char "\" pat = true ->
  has_char "\" t = false ->
  fnmatch t pat = false /\ fnmatch t ("*/" ++ pat) = false.
Proof.
  intros Hb Hc Ht. unfold fnmatch, translate. split;
    apply not_true_is_false; intros H;
    apply (match_needs_char "\") in H; try reflexivity; try congruence.
  - cbn [append has_char]. exact Hb.
  - cbn [append has_char]. exact Hc.
Qed.

End PatternLists.

(** X1.  A path is ignored exactly when one pattern of the list, taken
    alone, ignores it: lists may be joined, and their order is of no
    account. *)
Theorem should_ignore_one_pattern :
  forall (P : string),
    (forall S, should_ignore P S = existsb (fun pat => should_ignore P [pat]) S)
    /\ (forall S1 S2,
          should_ignore P (S1 ++ S2)%list
          = should_ignore P S1 || should_ignore P S2)
    /\ (forall S S', Permutation S S' -> should_ignore P S = should_ignore P S').
Proof.
  intros P. unfold should_ignore. split; [|split].
  - intros S. apply should_ignore_loop_existsb.
  - intros S1 S2. rewrite !(should_ignore_loop_existsb _ (_ ++ _)%list),
      (should_ignore_loop_existsb _ S1), (should_ignore_loop_existsb _ S2).
    apply existsb_app.
  - intros S S' HP. rewrite (should_ignore_loop_existsb _ S),
      (should_ignore_loop_existsb _ S'). apply existsb_perm, HP.
Qed.

Lemma should_ignore_one_pattern_witness :
  should_ignore "a/b.log" ["*.log"; "tmp/"] = should_ignore "a/b.log" ["tmp/"; "*.log"].
Proof.
  apply (proj2 (proj2 (should_ignore_one_pattern "a/b.log"))).
  apply perm_swap.
Defined.

(** X2.  A pattern [*s] with a literal [s] ignores exactly the paths that
    end with [s], as [*.pyc] and [*.log] do. *)
Theorem suffix_pattern_ignores_ending :
  forall (s P : string),
    literal s = true ->
    endswith s "/" = false ->
    should_ignore P ["*" ++ s] = endswith (replace_backslash P) s.
Proof.
  intros s P Hl He. unfold should_ignore.
  set (p := replace_backslash P).
  rewrite should_ignore_loop_file.
  2:{ cbn [append endswith String.eqb Ascii.eqb Bool.eqb]. exact He. }
  assert (F : forall t, fnmatch t ("*" ++ s) = endswith t s)
    by (intros t; apply (match_star_literal s Hl)).
  rewrite !F. destruct (endswith p s) eqn:Ep; [reflexivity|].
  assert (Eb : endswith (basename p) s = false).
  { apply not_true_is_false. intros H.
    rewrite (endswith_trans _ _ _ (endswith_basename p) H) in Ep.
    discriminate. }
  rewrite Eb. cbn [orb]. apply andb_false_iff. right.
  apply not_true_is_false. intros H.
  unfold fnmatch, translate in H.
  apply (match_ends_with s (translate_from 0 s) (match_literal s Hl)
           [TStar; TLit "/"; TStar]) in H.
  fold p in H. congruence.
Qed.

Lemma suffix_pattern_ignores_ending_witness :
  should_ignore "pkg\cache\mod.pyc" ["*.pyc"] = true.
Proof.
  exact (eq_trans
           (suffix_pattern_ignores_ending ".pyc" "pkg\cache\mod.pyc"
              eq_refl eq_refl)
           eq_refl).
Defined.

(** X3.  A literal pattern without a separator ignores exactly the paths
    whose last segment is that name, as [.DS_Store] does. *)
Theorem name_pattern_ignores_basename :
  forall (n P : string),
    literal n = true ->
    has_char "/" n = false ->
    should_ignore P [n] = String.eqb (basename (replace_backslash P)) n.
Proof.
  intros n P Hl Hs. unfold should_ignore.
  set (p := replace_backslash P).
  rewrite should_ignore_loop_file.
  2:{ apply not_true_is_false. intros H. apply endswith_has_char in H.
      congruence. }
  rewrite contains_sep, Hs. cbn [andb]. rewrite orb_false_r.
  unfold fnmatch, translate. rewrite !(match_literal n Hl).
  destruct (String.eqb_spec p n) as [E|_]; [|reflexivity].
  rewrite E, (basename_plain n Hs), String.eqb_refl. reflexivity.
Qed.

Lemma name_pattern_ignores_basename_witness :
  should_ignore "assets/.DS_Store" [".DS_Store"] = true
  /\ should_ignore "assets/.DS_Store.bak" [".DS_Store"] = false.
Proof.
  split.
  - rewrite (name_pattern_ignores_basename ".DS_Store"); reflexivity.
  - rewrite (name_pattern_ignores_basename ".DS_Store"); reflexivity.
Defined.

(** X4.  A directory pattern [d/] with a literal [d] ignores a path exactly
    when the path is [d] or ends with the segment [/d]; nothing else. *)
Theorem dir_pattern_ignores_exactly :
  forall (d P : string),
    literal d = true ->
    should_ignore P [d ++ "/"] = true
    <-> replace_backslash P = d
        \/ (exists x, replace_backslash P = x ++ "/" ++ d).
Proof.
  intros d P Hl. unfold should_ignore. set (p := replace_backslash P). split.
  - rewrite should_ignore_loop_dir by apply endswith_app.
    assert (Hld : literal (d ++ "/") = true)
      by (rewrite literal_app, Hl; reflexivity).
    unfold fnmatch, translate.
    change (translate_from 0 ("*/" ++ d ++ "/"))
      with (TStar :: translate_from 0 (String "/" (d ++ "/"))).
    rewrite (match_star_literal (String "/" (d ++ "/")) Hld).
    rewrite (match_literal _ Hld).
    intros H. apply orb_true_iff in H. destruct H as [H|H].
    + right. apply endswith_iff in H. destruct H as [x H]. exists x.
      apply (append_inv_tail _ _ "/"). rewrite H, !append_assoc. reflexivity.
    + left. apply String.eqb_eq in H. apply (append_inv_tail _ _ "/"), H.
  - intros H. apply (dir_pattern_loop d);
      [apply literal_no_bracket, Hl|left; reflexivity|exact H].
Qed.

Lemma dir_pattern_ignores_exactly_witness :
  should_ignore "web\node_modules" ["node_modules/"] = true.
Proof.
  apply (proj2 (dir_pattern_ignores_exactly "node_modules" "web\node_modules"
                  eq_refl)).
  right. exists "web". reflexivity.
Defined.

(** X5.  Only the path has its backslashes turned into separators, not the
    pattern: a bracket-free pattern that holds a backslash ignores
    nothing. *)
Theorem backslash_pattern_ignores_nothing :
  forall (pat P : string),
    has_char "[" pat = false ->
    has_char "\" pat = true ->
    should_ignore P [pat] = false.
Proof.
  intros pat P Hb Hc. unfold should_ignore.
  pose proof (has_char_replace_backslash P) as Hp.
  set (p := replace_backslash P) in *.
  assert (Hps : has_char "\" (p ++ "/") = false)
    by (rewrite has_char_app, Hp; reflexivity).
  assert (Hpb : has_char "\" (basename p) = false).
  { apply not_true_is_false. intros H. apply has_char_basename in H.
    congruence. }
  destruct (endswith pat "/") eqn:He.
  - rewrite (should_ignore_loop_dir _ _ He).
    destruct (fnmatch_backslash _ _ Hb Hc Hps) as [-> ->]. reflexivity.
  - rewrite (should_ignore_loop_file _ _ He).
    destruct (fnmatch_backslash _ _ Hb Hc Hp) as [-> ->].
    destruct (fnmatch_backslash _ _ Hb Hc Hpb) as [-> _].
    rewrite andb_false_r. reflexivity.
Qed.

Lemma backslash_pattern_ignores_nothing_witness :
  should_ignore "build\out" ["build\out"] = false
  /\ should_ignore "build/out" ["build\*"] = false.
Proof.
  split.
  - apply backslash_pattern_ignores_nothing; reflexivity.
  - apply backslash_pattern_ignores_nothing; reflexivity.
Defined.

(** ** The fixed patterns *)

Section FixedPatterns.

Lemma load_patterns_fixed (fs : filesystem) (patterns : list string) :
  load_patterns fs = Return patterns ->
  exists user, patterns = (user ++ fixed_patterns)%list.
Proof.
  unfold load_patterns.
  destruct (parse_gitignore fs (join root_dir ".gitignore")) as [user|e];
    cbn [bind]; [|discriminate].
  intros [= <-]. exists user. reflexivity.
Qed.

Lemma suffix_pattern_loop (s p : string) (patterns : list string) :
  literal s = true ->
  endswith s "/" = false ->
  In ("*" ++ s) patterns ->
  endswith p s = true ->
  should_ignore_loop p patterns = true.
Proof.
  intros Hl He Hin Hp. apply (should_ignore_loop_in _ ("*" ++ s) _ Hin).
  rewrite should_ignore_loop_file.
  2:{ cbn [append endswith String.eqb Ascii.eqb Bool.eqb]. exact He. }
  unfold fnmatch at 1. unfold translate.
  change (translate_from 0 ("*" ++ s)) with (TStar :: translate_from 0 s).
  rewrite (match_star_literal s Hl), Hp. reflexivity.
Qed.

Lemma name_pattern_loop (n p : string) (patterns : list string) :
  literal n = true ->
  endswith n "/" = false ->
  In n patterns ->
  basename p = n ->
  should_ignore_loop p patterns = true.
Proof.
  intros Hl He Hin Hp. apply (should_ignore_loop_in _ n _ Hin).
  rewrite (should_ignore_loop_file _ _ He).
  unfold fnmatch at 2. unfold translate.
  rewrite (match_literal n Hl), Hp, String.eqb_refl, orb_true_r. reflexivity.
Qed.

End FixedPatterns.

(** X6.  Whatever the ignore file holds, the housekeeping paths are ignored:
    anything whose last segment is [.git], [__pycache__], [node_modules],
    [.vscode], [.idea] or [.DS_Store], and anything that ends with [.pyc] or
    [.log]. *)
Theorem housekeeping_always_ignored :
  forall (fs : filesystem) (patterns : list string) (P : string),
    load_patterns fs = Return patterns ->
    In (basename (replace_backslash P))
       [".git"; "__pycache__"; "node_modules"; ".vscode"; ".idea"; ".DS_Store"]
    \/ endswith (replace_backslash P) ".pyc" = true
    \/ endswith (replace_backslash P) ".log" = true ->
    should_ignore P patterns = true.
Proof.
  intros fs patterns P Hl H. apply load_patterns_fixed in Hl.
  destruct Hl as [user ->]. unfold should_ignore.
  set (p := replace_backslash P) in *.
  assert (Hin : forall q, In q fixed_patterns -> In q (user ++ fixed_patterns)%list)
    by (intros q Hq; apply in_or_app; right; exact Hq).
  assert (Hdir : forall d, has_char "[" d = false ->
                           In (d ++ "/") fixed_patterns ->
                           basename p = d ->
                           should_ignore_loop p (user ++ fixed_patterns)%list = true).
  { intros d Hd Hq Hb. apply (dir_pattern_loop d); [exact Hd|apply Hin, Hq|].
    destruct (basename_split p) as [E|[x E]]; rewrite Hb in E;
      [left; exact E|right; exists x; exact E]. }
  destruct H as [H|[H|H]].
  - cbn [In] in H.
    destruct H as [H|[H|[H|[H|[H|[H|[]]]]]]]; symmetry in H.
    + apply (Hdir ".git"); [reflexivity|cbn; tauto|exact H].
    + apply (Hdir "__pycache__"); [reflexivity|cbn; tauto|exact H].
    + apply (Hdir "node_modules"); [reflexivity|cbn; tauto|exact H].
    + apply (Hdir ".vscode"); [reflexivity|cbn; tauto|exact H].
    + apply (Hdir ".idea"); [reflexivity|cbn; tauto|exact H].
    + apply (name_pattern_loop ".DS_Store");
        [reflexivity|reflexivity|apply Hin; cbn; tauto|exact H].
  - apply (suffix_pattern_loop ".pyc");
      [reflexivity|reflexivity|apply Hin; cbn; tauto|exact H].
  - apply (suffix_pattern_loop ".log");
      [reflexivity|reflexivity|apply Hin; cbn; tauto|exact H].
Qed.

Lemma housekeeping_always_ignored_witness :
  should_ignore "client\node_modules" scenario_patterns = true
  /\ should_ignore "server/debug.log" scenario_patterns = true.
Proof.
  split.
  - apply (housekeeping_always_ignored sample_fs); [reflexivity|].
    left. cbn. tauto.
  - apply (housekeeping_always_ignored sample_fs); [reflexivity|].
    right. right. reflexivity.
Defined.

(** ** Trimmed patterns *)

Section Strip.

Lemma lstrip_head (s : string) :
  match lstrip s with
  | "" => True
  | String c _ => is_space c = false
  end.
Proof.
  induction s as [|c s IH]; cbn [lstrip]; [exact I|].
  destruct (is_space c) eqn:E; [exact IH|exact E].
Qed.

Lemma rstrip_keeps_head (c : ascii) (s : string) :
  is_space c = false -> rstrip (String c s) = String c (rstrip s).
Proof.
  intros Hc. cbn [rstrip]. destruct (rstrip s); [rewrite Hc|]; reflexivity.
Qed.

Lemma rstrip_idem (s : string) : rstrip (rstrip s) = rstrip s.
Proof.
  induction s as [|c s IH]; [reflexivity|].
  cbn [rstrip]. destruct (rstrip s) as [|a r] eqn:E.
  - destruct (is_space c) eqn:Hc; [reflexivity|].
    cbn [rstrip]. rewrite Hc. reflexivity.
  - change (rstrip (String c (String a r)))
      with (match rstrip (String a r) with
            | "" => if is_space c then "" else String c ""
            | r' => String c r'
            end).
    rewrite IH. reflexivity.
Qed.

(** Trimming twice trims no more. *)
Lemma strip_idem (s : string) : strip (strip s) = strip s.
Proof.
  unfold strip. pose proof (lstrip_head s) as H.
  destruct (lstrip s) as [|c l]; [reflexivity|].
  rewrite (rstrip_keeps_head c l H). cbn [lstrip]. rewrite H.
  rewrite (rstrip_keeps_head c _ H), rstrip_idem. reflexivity.
Qed.

Lemma parse_loop_trimmed (lines : list string) :
  forall acc,
    Forall (fun p => p <> "" /\ startswith p "#" = false /\ strip p = p) acc ->
    Forall (fun p => p <> "" /\ startswith p "#" = false /\ strip p = p)
           (fold_left parse_line lines acc).
Proof.
  induction lines as [|l lines IH]; intros acc Hacc; [exact Hacc|].
  cbn [fold_left]. apply IH. unfold parse_line.
  destruct (negb (String.eqb (strip l) "") && negb (startswith (strip l) "#"))
    eqn:E; [|exact Hacc].
  apply andb_true_iff in E. destruct E as [E1 E2].
  apply negb_true_iff in E1, E2.
  apply Forall_app. split; [exact Hacc|]. constructor; [|constructor].
  repeat split; [apply String.eqb_neq, E1|exact E2|apply strip_idem].
Qed.

End Strip.

(** X7.  Whatever [parse_gitignore] returns, each pattern is non-empty, is
    no comment and carries no white space at either end. *)
Theorem parse_gitignore_patterns_trimmed :
  forall (fs : filesystem) (gitignore_path : string) (patterns : list string),
    parse_gitignore fs gitignore_path = Return patterns ->
    Forall (fun p => p <> "" /\ startswith p "#" = false /\ strip p = p)
           patterns.
Proof.
  intros fs path patterns. unfold parse_gitignore.
  destruct (fs_exists fs path); [|intros [= <-]; constructor].
  destruct (fs_read fs path) as [text|e]; cbn [bind]; [|discriminate].
  intros [= <-]. apply parse_loop_trimmed. constructor.
Qed.

Lemma parse_gitignore_patterns_trimmed_witness :
  Forall (fun p => p <> "" /\ startswith p "#" = false /\ strip p = p) ["*.md"].
Proof.
  apply (parse_gitignore_patterns_trimmed sample_fs "./.gitignore").
  reflexivity.
Defined.

(** ** Counting lines *)

Section LineCount.

Lemma universal_newlines_empty (s : string) :
  universal_newlines s = "" -> s = "".
Proof.
  destruct s as [|c s]; [reflexivity|]. cbn [universal_newlines].
  destruct (Ascii.eqb c CR); [|intros H; discriminate H].
  destruct s as [|a s]; [intros H; discriminate H|].
  destruct a as [[] [] [] [] [] [] [] []]; intros H; discriminate H.
Qed.

Lemma split_lines_empty (s : string) : split_lines s = [] -> s = "".
Proof.
  destruct s as [|c s]; [reflexivity|]. cbn [split_lines].
  destruct (Ascii.eqb c LF); [discriminate|].
  destruct (split_lines s); discriminate.
Qed.

Lemma unterminated_cons (c : ascii) (s : string) :
  s <> "" -> unterminated (String c s) = unterminated s.
Proof.
  intros Hs. unfold unterminated. cbn [endswith].
  apply String.eqb_neq in Hs. rewrite Hs.
  replace (String.eqb (String c s) nl) with false; [reflexivity|].
  symmetry. apply String.eqb_neq. intros E. injection E as _ E.
  apply String.eqb_neq in Hs. contradiction.
Qed.

(** Lines of a text with [\n] line ends only: one per [\n], and one more
    for an open last line. *)
Lemma split_lines_length (s : string) :
  List.length (split_lines s)
  = count_char LF s + (if unterminated s then 1 else 0).
Proof.
  induction s as [|c s IH]; [reflexivity|].
  cbn [split_lines count_char].
  destruct (Ascii.eqb_spec c LF) as [->|Hc].
  - cbn [List.length]. rewrite IH. destruct s as [|a s]; [reflexivity|].
    rewrite (unterminated_cons LF (String a s)) by congruence. lia.
  - destruct s as [|a s].
    + cbn. apply Ascii.eqb_neq in Hc. unfold unterminated, nl.
      cbn [String.eqb endswith]. rewrite Hc. reflexivity.
    + rewrite (unterminated_cons c (String a s)) by congruence.
      cbv iota. cbn [Nat.add]. rewrite <- IH.
      destruct (split_lines (String a s)) eqn:E; [|reflexivity].
      apply split_lines_empty in E. discriminate.
Qed.

End LineCount.

(** X8.  A file that can be read counts zero lines only when it is empty:
    what the walk drops for a zero count is an empty or an unreadable file,
    never one with text in it. *)
Theorem count_lines_zero_only_when_empty :
  forall (fs : filesystem) (p text : string),
    fs_read fs p = Return text ->
    (count_lines fs p = Return 0 <-> text = "").
Proof.
  intros fs p text Hr. unfold count_lines. rewrite Hr. cbn [bind try_except].
  split.
  - intros [= H]. apply length_zero_iff_nil in H.
    apply split_lines_empty in H. apply universal_newlines_empty, H.
  - intros ->. reflexivity.
Qed.

Lemma count_lines_zero_only_when_empty_witness :
  count_lines
    {| fs_root := Dir "." [File "empty.py"];
       fs_exists := fun _ => true;
       fs_read := fun _ => Return "" |} "./empty.py" = Return 0.
Proof.
  apply (proj2 (count_lines_zero_only_when_empty
                  {| fs_root := Dir "." [File "empty.py"];
                     fs_exists := fun _ => true;
                     fs_read := fun _ => Return "" |}
                  "./empty.py" "" eq_refl)).
  reflexivity.
Defined.

(** X9.  On a text without carriage returns the count is the number of
    [\n], plus one when the last line is left open: a final [\n] adds no
    line. *)
Theorem count_lines_counts_newlines :
  forall (fs : filesystem) (p text : string),
    fs_read fs p = Return text ->
    has_char CR text = false ->
    count_lines fs p
    = Return (count_char LF text + (if unterminated text then 1 else 0)).
Proof.
  intros fs p text Hr Hcr. unfold count_lines, file_lines. rewrite Hr.
  cbn [bind try_except]. rewrite (universal_newlines_plain _ Hcr).
  rewrite split_lines_length. reflexivity.
Qed.

Lemma count_lines_counts_newlines_witness :
  count_lines sample_fs "./server/main.go" = Return 20.
Proof.
  exact (eq_trans
           (count_lines_counts_newlines sample_fs "./server/main.go"
              (ten_lines ++ nl ++ ten_lines ++ nl) eq_refl eq_refl)
           eq_refl).
Defined.

(** ** Suffixes *)

Section Suffix.

Lemma rfind_char_split (c : ascii) (n : string) (i : nat) :
  rfind_char c n = Some i ->
  exists a b, n = a ++ String c b /\ String.length a = i /\ has_char c b = false.
Proof.
  revert i. induction n as [|x n IH]; intros i; cbn [rfind_char];
    [discriminate|].
  destruct (rfind_char c n) as [j|] eqn:E.
  - intros [= <-]. destruct (IH j eq_refl) as (a & b & -> & Hl & Hb).
    exists (String x a), b. cbn. rewrite Hl. repeat split. exact Hb.
  - destruct (Ascii.eqb_spec x c) as [->|_]; [|discriminate].
    intros [= <-]. exists "", n. repeat split.
    clear IH. induction n as [|y n IHn]; [reflexivity|].
    cbn [rfind_char] in E. destruct (rfind_char c n); [discriminate|].
    cbn [has_char]. destruct (Ascii.eqb y c); [discriminate|].
    apply IHn. reflexivity.
Qed.

Lemma substring_all (t : string) : String.substring 0 (String.length t) t = t.
Proof. induction t as [|c t IH]; cbn; [reflexivity|]. rewrite IH. reflexivity. Qed.

Lemma substring_skip (a t : string) (m : nat) :
  String.substring (String.length a) m (a ++ t) = String.substring 0 m t.
Proof. induction a as [|c a IH]; [reflexivity|]. cbn. exact IH. Qed.

(** A suffix, when there is one, is the last dot of the name and what
    follows, with something before and something after the dot. *)
Lemma suffix_split (p : string) :
  suffix p <> "" ->
  exists stem ext,
    name p = stem ++ "." ++ ext /\ suffix p = "." ++ ext
    /\ stem <> "" /\ ext <> "" /\ has_char "." ext = false.
Proof.
  unfold suffix. destruct (rfind_char "." (name p)) as [i|] eqn:E;
    [|intros H; contradiction].
  destruct (rfind_char_split _ _ _ E) as (a & b & Hn & Hl & Hb).
  rewrite Hn. rewrite length_append. cbn [String.length].
  destruct ((0 <? i) && (i <? String.length a + S (String.length b) - 1))%nat
    eqn:C; [|intros H; contradiction].
  intros _. apply andb_true_iff in C. destruct C as [C1 C2].
  apply Nat.ltb_lt in C1, C2. exists a, b.
  split; [reflexivity|]. split.
  - rewrite <- Hl, substring_skip.
    replace (String.length a + S (String.length b) - String.length a)
      with (String.length (String "." b)) by (cbn; lia).
    apply substring_all.
  - repeat split; [| |exact Hb].
    + intros ->. cbn in Hl. lia.
    + intros ->. cbn in C2. lia.
Qed.

End Suffix.

(** X10.  A path passes the extension test only if its name is a non-empty
    stem, a dot and a non-empty extension without further dots that the
    allow-list holds in lower case: names without a dot, dot-files and
    names that end with a dot never pass. *)
Theorem is_text_file_needs_extension :
  forall p : string,
    is_text_file p = true ->
    exists stem ext,
      name p = stem ++ "." ++ ext
      /\ stem <> "" /\ ext <> "" /\ has_char "." ext = false
      /\ In (lower ("." ++ ext)) text_extensions.
Proof.
  intros p H. unfold is_text_file in H.
  assert (Hs : suffix p <> "") by (intros E; rewrite E in H; discriminate).
  destruct (suffix_split p Hs) as (stem & ext & Hn & Hx & H1 & H2 & H3).
  exists stem, ext. rewrite Hx in H.
  repeat split; try assumption. apply mem_true_In, H.
Qed.

Lemma is_text_file_needs_extension_witness :
  exists stem ext,
    name "./tools/setup.cfg.PY" = stem ++ "." ++ ext
    /\ stem <> "" /\ ext <> "" /\ has_char "." ext = false
    /\ In (lower ("." ++ ext)) text_extensions.
Proof.
  apply (is_text_file_needs_extension "./tools/setup.cfg.PY"). reflexivity.
Defined.

(** ** Separators and case *)

Section Normalising.

Lemma unify_sep_idem (c : ascii) : unify_sep (unify_sep c) = unify_sep c.
Proof.
  unfold unify_sep. destruct (Ascii.eqb c "\") eqn:E; [reflexivity|].
  rewrite E. reflexivity.
Qed.

Lemma replace_backslash_idem (p : string) :
  replace_backslash (replace_backslash p) = replace_backslash p.
Proof.
  induction p as [|c p IH]; [reflexivity|].
  cbn [replace_backslash]. rewrite unify_sep_idem, IH. reflexivity.
Qed.

Lemma lower_unify_lower (c : ascii) :
  lower_char (unify_sep (lower_char c)) = lower_char (unify_sep c).
Proof. destruct c as [[] [] [] [] [] [] [] []]; reflexivity. Qed.

Lemma lower_replace_lower (p : string) :
  lower (replace_backslash (lower p)) = lower (replace_backslash p).
Proof.
  induction p as [|c p IH]; [reflexivity|].
  cbn [lower replace_backslash]. rewrite lower_unify_lower, IH. reflexivity.
Qed.

End Normalising.

(** X11.  Neither function tells a backslash from a separator in the path,
    and the category does not depend on letter case. *)
Theorem separators_and_case_ignored :
  forall p : string,
    categorize_file (replace_backslash p) = categorize_file p
    /\ categorize_file (lower p) = categorize_file p
    /\ (forall S, should_ignore (replace_backslash p) S = should_ignore p S).
Proof.
  intros p. unfold categorize_file, should_ignore.
  rewrite replace_backslash_idem, lower_replace_lower. repeat split.
Qed.

(** ** What the walk records *)

Section Records.

Variable fs : filesystem.
Variable ignore_patterns : list string.

(** The record an iteration adds passed every test of the loop body. *)
Lemma visit_file_inv (st st' : state) (root file : string) :
  visit_file fs ignore_patterns st root file = Return st' ->
  st' = st
  \/ exists n,
       0 < n
       /\ should_ignore (relpath (join root file)) ignore_patterns = false
       /\ is_text_file (join root file) = true
       /\ count_lines fs (join root file) = Return n
       /\ st' = record st (categorize_file (relpath (join root file)))
                       (relpath (join root file), n).
Proof.
  unfold visit_file.
  destruct (should_ignore _ _) eqn:Hi; cbn [orb];
    [intros [= <-]; left; reflexivity|].
  destruct (is_text_file _) eqn:Ht; cbn [negb];
    [|intros [= <-]; left; reflexivity].
  destruct (count_lines fs (join root file)) as [n|e]; cbn [bind];
    [|discriminate].
  destruct (Nat.ltb_spec 0 n) as [Hn|Hn]; intros [= <-];
    [|left; reflexivity].
  right. exists n. repeat split; assumption.
Qed.

Lemma files_of_record (c c' : category) (st : state) (e x : file_entry) :
  In x (files_of c (record st c' e)) <->
  In x (files_of c st) \/ (c = c' /\ x = e).
Proof.
  destruct c, c'; cbn [files_of record client_files server_files other_files];
    rewrite ?in_app_iff; cbn [In]; split; intros H;
    intuition (try discriminate; subst; auto).
Qed.

Lemma all_records_files_of (st : state) (e : file_entry) :
  In e (all_records st) <-> exists c, In e (files_of c st).
Proof.
  unfold all_records. rewrite !in_app_iff. split.
  - intros [H|[H|H]]; [exists client|exists server|exists other]; exact H.
  - intros [[] H]; cbn [files_of] in H; tauto.
Qed.

Lemma trace_sound :
  Forall (fun st =>
            forall c e, In e (files_of c st) ->
              categorize_file (fst e) = c
              /\ should_ignore (fst e) ignore_patterns = false
              /\ exists root file,
                   In (root, file) (visits fs ignore_patterns)
                   /\ fst e = relpath (join root file)
                   /\ is_text_file (join root file) = true
                   /\ count_lines fs (join root file) = Return (snd e))
         (collect_trace fs ignore_patterns).
Proof.
  apply (trace_invariant fs ignore_patterns _
           (fun w => In w (visits fs ignore_patterns))).
  - intros st st' root file Hi Hw Hv.
    destruct (visit_file_inv _ _ _ _ Hv)
      as [->|(n & Hn & H1 & H2 & H3 & ->)]; [exact Hi|].
    intros c e He. apply files_of_record in He.
    destruct He as [He|[-> ->]]; [apply Hi, He|].
    cbn [fst snd]. repeat split; try assumption.
    exists root, file. repeat split; assumption.
  - apply Forall_forall. intros w Hw. exact Hw.
  - intros [] e [].
Qed.

(** A run only ever appends to the three lists. *)
Lemma trace_extends (work : list (string * string)) :
  forall st st',
    In st' (trace fs ignore_patterns st work) ->
    forall c, exists more, files_of c st' = (files_of c st ++ more)%list.
Proof.
  induction work as [|[root file] work IH]; intros st st' H c; cbn [trace] in H.
  - destruct H as [<-|[]]. exists []. symmetry. apply app_nil_r.
  - destruct H as [<-|H]; [exists []; symmetry; apply app_nil_r|].
    destruct (visit_file fs ignore_patterns st root file) as [st1|e] eqn:Hv;
      [|contradiction].
    destruct (IH _ _ H c) as [more Hm]. rewrite Hm.
    destruct (visit_file_inv _ _ _ _ Hv) as [->|(n & _ & _ & _ & _ & ->)];
      [exists more; reflexivity|].
    destruct c, (categorize_file (relpath (join root file)));
      cbn [files_of record client_files server_files other_files];
      rewrite <- ?app_assoc; eexists; reflexivity.
Qed.

(** What passes the tests of the loop body is in its list at the end. *)
Lemma run_complete (work : list (string * string)) :
  forall st st' root file n,
    run fs ignore_patterns st work = Return st' ->
    In (root, file) work ->
    should_ignore (relpath (join root file)) ignore_patterns = false ->
    is_text_file (join root file) = true ->
    count_lines fs (join root file) = Return (S n) ->
    In (relpath (join root file), S n)
       (files_of (categorize_file (relpath (join root file))) st').
Proof.
  induction work as [|[r f] work IH]; intros st st' root file n Hr Hin H1 H2 H3;
    [contradiction|].
  cbn [run] in Hr.
  destruct (visit_file fs ignore_patterns st r f) as [st1|e] eqn:Hv;
    cbn [bind] in Hr; [|discriminate].
  destruct Hin as [[= -> ->]|Hin]; [|exact (IH _ _ _ _ _ Hr Hin H1 H2 H3)].
  unfold visit_file in Hv. rewrite H1, H2, H3 in Hv. cbn in Hv.
  injection Hv as <-.
  apply run_in_trace in Hr.
  destruct (trace_extends _ _ _ Hr
              (categorize_file (relpath (join root file)))) as [more ->].
  apply in_or_app. left. apply files_of_record. right. split; reflexivity.
Qed.

Lemma In_File_filenames (f : string) (es : list entry) :
  In (File f) es -> In f (filenames es).
Proof.
  intros H. unfold filenames. apply in_flat_map.
  exists (File f). split; [exact H|left; reflexivity].
Qed.

(** The walk reaches every file under kept directories. *)
Lemma walk_complete (keep : string -> string -> bool) (e : entry)
    (ds : list string) (f : string) :
  located e ds f ->
  forall top,
    kept_chain keep top ds ->
    exists dirs files,
      In (fold_left join ds top, dirs, files) (walk keep top e) /\ In f files.
Proof.
  induction 1 as [n es f Hin|n es d ch ds f Hin Hl IH]; intros top Hk.
  - exists (dirnames es), (filenames es). split; [left; reflexivity|].
    apply In_File_filenames, Hin.
  - destruct Hk as [Hd Hk]. destruct (IH _ Hk) as (dirs & files & Hw & Hf).
    exists dirs, files. split; [|exact Hf].
    cbn [walk fold_left]. right. apply in_flat_map.
    exists (Dir d ch). split; [exact Hin|]. rewrite Hd. exact Hw.
Qed.

Lemma never_ignored_kept (ds : list string) :
  forall top,
    (forall k, 0 < k <= List.length ds ->
       should_ignore (relpath (fold_left join (firstn k ds) top))
         ignore_patterns = false) ->
    kept_chain (keep_dir ignore_patterns) top ds.
Proof.
  induction ds as [|d ds IH]; intros top H; [exact I|]. split.
  - unfold keep_dir. apply negb_true_iff.
    apply (H 1). cbn [List.length]. lia.
  - apply IH. intros k Hk. apply (H (S k)). cbn [List.length]. lia.
Qed.

Lemma located_visited (ds : list string) (f : string) :
  located (fs_root fs) ds f ->
  never_ignored ignore_patterns ds ->
  In (dir_path ds, f) (visits fs ignore_patterns).
Proof.
  intros Hl Hn. apply never_ignored_kept in Hn.
  destruct (walk_complete _ _ _ _ Hl _ Hn) as (dirs & files & Hw & Hf).
  unfold visits. apply in_flat_map. exists (dir_path ds, dirs, files).
  split; [exact Hw|]. apply in_map, Hf.
Qed.

End Records.

(** X12.  Every record held, at any point of the run, is of a file the
    loops met, whose relative path is not ignored, whose extension passed,
    and whose count is what [count_lines] returned for it. *)
Theorem records_passed_every_test :
  forall (fs : filesystem) (ignore_patterns : list string)
         (st : state) (e : file_entry),
    In st (collect_trace fs ignore_patterns) ->
    In e (all_records st) ->
    should_ignore (fst e) ignore_patterns = false
    /\ exists root file,
         In (root, file) (visits fs ignore_patterns)
         /\ fst e = relpath (join root file)
         /\ is_text_file (join root file) = true
         /\ count_lines fs (join root file) = Return (snd e).
Proof.
  intros fs pats st e Hst He.
  pose proof (trace_sound fs pats) as H. rewrite Forall_forall in H.
  apply all_records_files_of in He. destruct He as [c He].
  destruct (H st Hst c e He) as (_ & H1 & H2). split; assumption.
Qed.

Lemma records_passed_every_test_witness :
  should_ignore "client/app.ts" scenario_patterns = false
  /\ exists root file,
       In (root, file) (visits sample_fs scenario_patterns)
       /\ "client/app.ts" = relpath (join root file)
       /\ is_text_file (join root file) = true
       /\ count_lines sample_fs (join root file) = Return 10.
Proof.
  apply (records_passed_every_test sample_fs scenario_patterns scenario_lists
           ("client/app.ts", 10)).
  - apply (run_in_trace sample_fs scenario_patterns). reflexivity.
  - left. reflexivity.
Defined.

(** X13.  Each of the three lists only ever holds records of its own
    category. *)
Theorem lists_hold_their_category :
  forall (fs : filesystem) (ignore_patterns : list string)
         (st : state) (c : category) (e : file_entry),
    In st (collect_trace fs ignore_patterns) ->
    In e (files_of c st) ->
    categorize_file (fst e) = c.
Proof.
  intros fs pats st c e Hst He.
  pose proof (trace_sound fs pats) as H. rewrite Forall_forall in H.
  exact (proj1 (H st Hst c e He)).
Qed.

Lemma lists_hold_their_category_witness :
  categorize_file "server/main.go" = server.
Proof.
  apply (lists_hold_their_category sample_fs scenario_patterns scenario_lists
           server ("server/main.go", 20)).
  - apply (run_in_trace sample_fs scenario_patterns). reflexivity.
  - left. reflexivity.
Defined.

(** X14.  The loops only append: every later state of the three lists is
    the earlier one with records added at the end, none removed or moved. *)
Theorem lists_only_grow :
  forall (fs : filesystem) (ignore_patterns : list string)
         (work : list (string * string)) (st st' : state),
    In st' (trace fs ignore_patterns st work) ->
    exists a b c,
      client_files st' = (client_files st ++ a)%list
      /\ server_files st' = (server_files st ++ b)%list
      /\ other_files st' = (other_files st ++ c)%list.
Proof.
  intros fs pats work st st' H.
  destruct (trace_extends fs pats work st st' H client) as [a Ha].
  destruct (trace_extends fs pats work st st' H server) as [b Hb].
  destruct (trace_extends fs pats work st st' H other) as [c Hc].
  exists a, b, c. repeat split; assumption.
Qed.

Lemma lists_only_grow_witness :
  exists a b c,
    client_files scenario_lists = ([] ++ a)%list
    /\ server_files scenario_lists = ([] ++ b)%list
    /\ other_files scenario_lists = ([] ++ c)%list.
Proof.
  apply (lists_only_grow sample_fs scenario_patterns
           (visits sample_fs scenario_patterns) empty_state scenario_lists).
  apply (run_in_trace sample_fs scenario_patterns). reflexivity.
Defined.

(** X15.  Nothing is missed: when the walk returns, a file that lies under
    directories none of which is ignored, that is not ignored itself, has an
    allowed extension and a count above zero is in the list of its
    category, with that count. *)
Theorem walk_records_every_kept_file :
  forall (fs : filesystem) (ignore_patterns : list string) (st : state)
         (ds : list string) (f : string) (n : nat),
    collect fs ignore_patterns = Return st ->
    located (fs_root fs) ds f ->
    never_ignored ignore_patterns ds ->
    should_ignore (relpath (join (dir_path ds) f)) ignore_patterns = false ->
    is_text_file (join (dir_path ds) f) = true ->
    count_lines fs (join (dir_path ds) f) = Return (S n) ->
    In (relpath (join (dir_path ds) f), S n)
       (files_of (categorize_file (relpath (join (dir_path ds) f))) st).
Proof.
  intros fs pats st ds f n Hc Hl Hn H1 H2 H3.
  apply (run_complete fs pats (visits fs pats) empty_state st); try assumption.
  apply located_visited; assumption.
Qed.

Lemma walk_records_every_kept_file_witness :
  In ("client/app.ts", 10) (client_files scenario_lists).
Proof.
  apply (walk_records_every_kept_file sample_fs scenario_patterns
           scenario_lists ["client"] "app.ts" 9).
  - reflexivity.
  - apply (located_below _ _ "client" [File "app.ts"]); [left; reflexivity|].
    apply located_here. left. reflexivity.
  - intros k Hk. cbn [List.length] in Hk.
    assert (E : k = 1) by lia. subst k. reflexivity.
  - reflexivity.
  - reflexivity.
  - reflexivity.
Defined.

Section StarPattern.

Lemma endswith_empty (t : string) : endswith t "" = true.
Proof.
  induction t as [|c t IH]; [reflexivity|].
  cbn [endswith]. rewrite IH. apply orb_true_r.
Qed.

Lemma fnmatch_star (t : string) : fnmatch t "*" = true.
Proof.
  unfold fnmatch, translate.
  change (translate_from 0 "*") with (TStar :: translate_from 0 "").
  rewrite (match_star_literal "" eq_refl). apply endswith_empty.
Qed.

Lemma star_ignores (P : string) (patterns : list string) :
  In "*" patterns -> should_ignore P patterns = true.
Proof.
  intros Hin. unfold should_ignore.
  apply (should_ignore_loop_in _ "*" _ Hin).
  rewrite should_ignore_loop_file by reflexivity.
  rewrite fnmatch_star. reflexivity.
Qed.

Lemma run_all_ignored (fs : filesystem) (patterns : list string)
    (work : list (string * string)) (st : state) :
  (forall P, should_ignore P patterns = true) ->
  run fs patterns st work = Return st.
Proof.
  intros H. induction work as [|[root file] work IH]; [reflexivity|].
  cbn [run]. unfold visit_file. rewrite H. cbn [orb bind]. exact IH.
Qed.

End StarPattern.

(** X16.  With the pattern [*] in the list every path is ignored, and the
    walk hands over three empty lists. *)
Theorem star_pattern_empties_report :
  forall (fs : filesystem) (ignore_patterns : list string),
    In "*" ignore_patterns ->
    (forall P, should_ignore P ignore_patterns = true)
    /\ collect fs ignore_patterns = Return empty_state.
Proof.
  intros fs pats Hin.
  assert (H : forall P, should_ignore P pats = true)
    by (intros P; apply star_ignores, Hin).
  split; [exact H|]. apply run_all_ignored, H.
Qed.

Lemma star_pattern_empties_report_witness :
  collect sample_fs ["*"; "*.md"] = Return empty_state.
Proof.
  apply (proj2 (star_pattern_empties_report sample_fs ["*"; "*.md"]
                  (or_introl eq_refl))).
Defined.

(** ** The report *)

Section Totals.


Lemma list_sum_perm (l l' : list nat) :
  Permutation l l' -> list_sum l = list_sum l'.
Proof.
  induction 1 as [|x l l' _ IH|x y l|l l' l'' _ IH1 _ IH2]; simpl; lia.
Qed.

Lemma sort_desc_length (l : list file_entry) :
  List.length (sort_desc l) = List.length l.
Proof. symmetry. apply Permutation_length, sort_desc_perm. Qed.

Lemma sort_desc_sum (l : list file_entry) :
  list_sum (map snd (sort_desc l)) = list_sum (map snd l).
Proof.
  symmetry. apply list_sum_perm, Permutation_map, sort_desc_perm.
Qed.

Lemma summary_lines (st : state) :
  In ("Total files analyzed: " ++ of_nat (total_files st)) (print_report st)
  /\ In ("Total lines of code: " ++ of_nat (total_lines st)) (print_report st).
Proof.
  unfold print_report. split; repeat (apply in_or_app; right); cbn [In]; tauto.
Qed.

End Totals.



(** X18.  The totals of the overall summary are those of the lists the walk
    handed over: sorting changes neither the number of files nor the sum of
    their lines, and both are printed. *)
Theorem summary_totals_are_walk_totals :
  forall (fs : filesystem) (ignore_patterns : list string) (st0 : state),
    load_patterns fs = Return ignore_patterns ->
    collect fs ignore_patterns = Return st0 ->
    exists st out,
      sorted_lists fs = Return st
      /\ total_files st = total_files st0
      /\ total_lines st = total_lines st0
      /\ main fs = Return out
      /\ In ("Total files analyzed: " ++ of_nat (total_files st0)) out
      /\ In ("Total lines of code: " ++ of_nat (total_lines st0)) out.
Proof.
  intros fs pats st0 Hl Hc.
  assert (Hs : sorted_lists fs
               = Return {| client_files := sort_desc (client_files st0);
                           server_files := sort_desc (server_files st0);
                           other_files := sort_desc (other_files st0) |})
    by (unfold sorted_lists; rewrite Hl; cbn [bind]; rewrite Hc; reflexivity).
  eexists. eexists. split; [exact Hs|].
  assert (Hf : forall st1,
             st1 = {| client_files := sort_desc (client_files st0);
                      server_files := sort_desc (server_files st0);
                      other_files := sort_desc (other_files st0) |} ->
             total_files st1 = total_files st0
             /\ total_lines st1 = total_lines st0).
  { intros st1 ->. unfold total_files, total_lines.
    cbn [client_files server_files other_files].
    rewrite !sort_desc_length, !sort_desc_sum. split; reflexivity. }
  destruct (Hf _ eq_refl) as [Hf1 Hf2].
  split; [exact Hf1|]. split; [exact Hf2|].
  split; [unfold main; rewrite Hs; reflexivity|].
  rewrite <- Hf1, <- Hf2. apply summary_lines.
Qed.

Lemma summary_totals_are_walk_totals_witness :
  exists st out,
    sorted_lists sample_fs = Return st
    /\ total_files st = 2
    /\ total_lines st = 30
    /\ main sample_fs = Return out
    /\ In "Total files analyzed: 2" out
    /\ In "Total lines of code: 30" out.
Proof.
  exact (summary_totals_are_walk_totals sample_fs scenario_patterns
           scenario_lists eq_refl eq_refl).
Defined.

(** ** Errors *)

Section MainErrors.

Variable fs : filesystem.


End MainErrors.

(** X19.  An ignore file that exists but cannot be read stops the script:
    [main] raises what opening it raised, and prints nothing. *)
Theorem unreadable_ignore_file_raises :
  forall (fs : filesystem) (e : exn),
    fs_exists fs "./.gitignore" = true ->
    fs_read fs "./.gitignore" = Raise e ->
    main fs = Raise e.
Proof.
  intros fs e He Hr. unfold main, sorted_lists, load_patterns, parse_gitignore.
  change (join root_dir ".gitignore") with "./.gitignore".
  rewrite He, Hr. reflexivity.
Qed.

Lemma unreadable_ignore_file_raises_witness :
  main {| fs_root := Dir "." [File ".gitignore"; File "a.py"];
          fs_exists := fun _ => true;
          fs_read := fun p => if String.eqb p "./.gitignore"
                              then Raise PermissionError else Return "x" |}
  = Raise PermissionError.
Proof.
  apply unreadable_ignore_file_raises; reflexivity.
Defined.



(** ** Patterns with a directory part *)

(** X21.  A literal pattern that holds a separator without ending in one
    ignores a path exactly when the path is the pattern or ends with it as
    whole segments. *)
Theorem path_pattern_ignores_exactly :
  forall (pat P : string),
    literal pat = true ->
    endswith pat "/" = false ->
    has_char "/" pat = true ->
    should_ignore P [pat] = true
    <-> replace_backslash P = pat
        \/ (exists x, replace_backslash P = x ++ "/" ++ pat).
Proof.
  intros pat P Hl He Hs. unfold should_ignore. set (p := replace_backslash P).
  rewrite (should_ignore_loop_file _ _ He), contains_sep, Hs. cbn [andb].
  unfold fnmatch, translate.
  change (translate_from 0 ("*/" ++ pat))
    with (TStar :: translate_from 0 (String "/" pat)).
  rewrite (match_star_literal (String "/" pat) Hl), !(match_literal pat Hl).
  replace (String.eqb (basename p) pat) with false.
  2:{ symmetry. apply String.eqb_neq. intros E.
      pose proof (basename_no_sep p) as Hb. rewrite E in Hb. congruence. }
  rewrite orb_false_r, orb_true_iff, String.eqb_eq, endswith_iff.
  split; (intros [H|[x H]]; [left; exact H|right; exists x; exact H]).
Qed.

Lemma path_pattern_ignores_exactly_witness :
  should_ignore "web\docs\build" ["docs/build"] = true.
Proof.
  apply (proj2 (path_pattern_ignores_exactly "docs/build" "web\docs\build"
                  eq_refl eq_refl eq_refl)).
  right. exists "web". reflexivity.
Defined.

(** ** The name behind a path *)

Section Names.

Lemma split_nonempty (c : ascii) (s : string) : split c s <> [].
Proof.
  destruct s as [|a s]; [discriminate|]. cbn [split].
  destruct (Ascii.eqb a c); [discriminate|].
  destruct (split c s); discriminate.
Qed.

Lemma split_plain (c : ascii) (s : string) :
  has_char c s = false -> split c s = [s].
Proof.
  induction s as [|a s IH]; [reflexivity|].
  cbn [has_char split]. intros H. apply orb_false_iff in H.
  destruct H as [Ha Hs]. rewrite Ha, (IH Hs). reflexivity.
Qed.

Lemma split_app_sep (c : ascii) (a f : string) :
  has_char c f = false ->
  split c (a ++ String c f) = (split c a ++ [f])%list.
Proof.
  intros Hf. induction a as [|x a IH]; cbn [append split].
  - rewrite Ascii.eqb_refl, (split_plain c f Hf). reflexivity.
  - destruct (Ascii.eqb x c); rewrite IH; [reflexivity|].
    pose proof (split_nonempty c a) as Hn.
    destruct (split c a); [contradiction|reflexivity].
Qed.

(** The name of a path is its last segment, when that is an ordinary
    name. *)
Lemma name_of_join (a f : string) :
  has_char "/" f = false -> is_part f = true -> name (a ++ "/" ++ f) = f.
Proof.
  intros Hf Hp. unfold name. cbn [append].
  rewrite (split_app_sep "/" a f Hf), filter_app. cbn [filter]. rewrite Hp.
  apply last_last.
Qed.

Lemma name_plain (f : string) :
  has_char "/" f = false -> is_part f = true -> name f = f.
Proof.
  intros Hf Hp. unfold name. rewrite (split_plain "/" f Hf). cbn [filter].
  rewrite Hp. reflexivity.
Qed.

End Names.

(** X22.  The extension test looks at the file name alone: the directories
    in front of an ordinary name, whatever they are called, change
    nothing. *)
Theorem is_text_file_ignores_directories :
  forall (dir f : string),
    has_char "/" f = false ->
    f <> "" -> f <> "." ->
    is_text_file (dir ++ "/" ++ f) = is_text_file f.
Proof.
  intros dir f Hf H1 H2.
  assert (Hp : is_part f = true).
  { unfold is_part. apply String.eqb_neq in H1, H2. rewrite H1, H2.
    reflexivity. }
  unfold is_text_file, suffix.
  rewrite (name_of_join dir f Hf Hp), (name_plain f Hf Hp). reflexivity.
Qed.

Lemma is_text_file_ignores_directories_witness :
  is_text_file "./vendor.py/README" = false.
Proof.
  exact (eq_trans
           (is_text_file_ignores_directories "./vendor.py" "README"
              eq_refl
              (fun E => match E with end)
              (fun E => match E with end))
           eq_refl).
Defined.

(** ** Line ends *)

Section LineEnds.

Lemma universal_newlines_cr_lf (x : string) :
  universal_newlines (String CR (String LF x))
  = universal_newlines (String LF x).
Proof. reflexivity. Qed.

Lemma universal_newlines_cr (c : ascii) (x : string) :
  c <> LF ->
  universal_newlines (String CR (String c x))
  = String LF (universal_newlines (String c x)).
Proof.
  intros Hc. destruct c as [[] [] [] [] [] [] [] []];
    try reflexivity. contradiction Hc. reflexivity.
Qed.

Lemma endswith_cons_false (c : ascii) (a p : string) :
  endswith (String c a) p = false -> endswith a p = false.
Proof. cbn [endswith]. intros H. apply orb_false_iff in H. apply H. Qed.

(** Translating line ends goes through a join that does not split a
    [\r\n]. *)
Lemma universal_newlines_app (a s : string) :
  endswith a (String CR "") = false ->
  universal_newlines (a ++ s) = universal_newlines a ++ universal_newlines s.
Proof.
  induction a as [|c a IH]; intros He; [reflexivity|].
  specialize (IH (endswith_cons_false _ _ _ He)).
  destruct (Ascii.eqb_spec c CR) as [->|Hc].
  - destruct a as [|c' a]; [discriminate|].
    cbn [append] in *. destruct (Ascii.eqb_spec c' LF) as [->|Hn].
    + rewrite !universal_newlines_cr_lf. exact IH.
    + rewrite !(universal_newlines_cr _ _ Hn), IH. reflexivity.
  - apply Ascii.eqb_neq in Hc. cbn [append universal_newlines].
    rewrite Hc, IH. reflexivity.
Qed.

End LineEnds.

(** X23.  A [\r\n] line end counts as the one line end [\n] does: the two
    texts have the same lines. *)
Theorem crlf_counts_as_lf :
  forall (a b : string),
    endswith a (String CR "") = false ->
    file_lines (a ++ String CR (String LF b)) = file_lines (a ++ String LF b).
Proof.
  intros a b He. unfold file_lines.
  rewrite !(universal_newlines_app a _ He), universal_newlines_cr_lf.
  reflexivity.
Qed.

Lemma crlf_counts_as_lf_witness :
  file_lines ("one" ++ String CR (String LF "two")) = ["one" ++ nl; "two"].
Proof.
  exact (eq_trans (crlf_counts_as_lf "one" "two" eq_refl) eq_refl).
Defined.
